(** * red-connector-xnat: the HTTP connector ([red_connector_xnat/http.py])

    A shallow embedding of [Http.receive], [Http.send], the two validators
    and the JSON schemas they check, followed by the properties of the
    synchronisation protocol.

    - Python dicts are finite maps ([gmap string _]); a JSON document is the
      value [r.json()] or [json.load] would build.
    - The remote XNAT server is an arbitrary deterministic state machine
      [srv]; the local file system is a finite map from paths to bytes.
    - [Http.send] and [Http.receive] run in a state-and-exception monad that
      also returns the trace of the calls they made. *)

From Stdlib Require Import ZArith String Ascii List Bool Lia.
From stdpp Require Import base option list gmap strings fin_maps.

#[local] Set Warnings "-register-all".

Open Scope string_scope.
Open Scope list_scope.
Open Scope Z_scope.

(** ** Python strings *)

Module PyStr.

(** [s.rstrip('/')]: drop every trailing slash. *)
Fixpoint rstrip_slash (s : string) : string :=
  match s with
  | EmptyString => EmptyString
  | String c rest =>
      match rstrip_slash rest with
      | EmptyString => if Ascii.eqb c "/" then EmptyString else String c EmptyString
      | kept => String c kept
      end
  end.

(** ['/' * n] *)
Fixpoint slashes (n : nat) : string :=
  match n with
  | O => EmptyString
  | S k => String "/" (slashes k)
  end.

(** Truthiness of a [str]: only the empty string is falsy. *)
Definition truthy (s : string) : bool :=
  match s with
  | EmptyString => false
  | String _ _ => true
  end.

(** [str(x)] for a value that is a [str] or [None], as ['{}'.format(x)]
    renders it. *)
Definition format_opt (o : option string) : string :=
  match o with
  | Some s => s
  | None => "None"
  end.

(** The characters of a string, each as a one-character string
    ([for ch in s]). *)
Fixpoint chars (s : string) : list string :=
  match s with
  | EmptyString => []
  | String c rest => String c EmptyString :: chars rest
  end.

End PyStr.

(** ** JSON values *)

(** What [json.loads] returns: [None], [bool], a number, [str], [list] or
    [dict].  The code never inspects the value of a number. *)
Inductive json : Type :=
| JNull
| JBool (b : bool)
| JNum (n : Z)
| JStr (s : string)
| JArr (items : list json)
| JObj (fields : gmap string json).

Definition bytes : Type := list Byte.byte.

(** ** Exceptions *)

(** A cookie jar ([requests.cookies.RequestsCookieJar]). *)
Definition CookieJar : Type := list (string * string).

(** A [requests.Response], as far as the connector looks at it. *)
Record Response : Type := mkResponse {
  status_code : Z;
  (** [r.json()]; [None] when the body is not a JSON document *)
  json_body : option json;
  (** what [r.iter_content(chunk_size=4096)] yields *)
  content_chunks : list bytes;
  (** the stream breaks after the last chunk above *)
  stream_broken : bool;
  cookies : CookieJar
}.

Inductive exn : Type :=
| KeyError (key : string)
| TypeError
| JSONDecodeError
| HTTPError (response : Response)
| ConnectionError
| ChunkedEncodingError
| FileNotFoundError (path : string)
| ValidationError
| PyException (message : string).

Inductive result (A : Type) : Type :=
| Ok (a : A)
| Raised (e : exn).
Arguments Ok {A} a.
Arguments Raised {A} e.


(** ** Descriptors *)

(** The ['auth'] sub-dict of an access description. *)
Record AuthDict : Type := mkAuthDict {
  username : string;
  password : string
}.

(** The [access] dict handed to [Http.send] and [Http.receive], restricted
    to the property table the three schemas share: one field per property,
    typed as the schema types it, [None] when the key is absent. *)
Record Access : Type := mkAccess {
  baseUrl : option string;
  project : option string;
  subject : option string;
  session : option string;
  containerType : option string;
  container : option string;
  resource : option string;
  xsiType : option string;
  file : option string;
  upsert : option bool;
  auth : option AuthDict;
  disableSSLVerification : option bool
}.

(** The [internal] dict: [internal['path']]. *)
Record Internal : Type := mkInternal {
  path : string
}.

(** ** Requests, replies and traces *)

Record HTTPBasicAuth : Type := mkHTTPBasicAuth {
  basic_username : string;
  basic_password : string
}.

Inductive Method : Type := GET | PUT | DELETE.

(** One call of [requests.get], [requests.put] or [requests.delete] with
    its keyword arguments. *)
Record Request : Type := mkRequest {
  meth : Method;
  url : string;
  req_auth : option HTTPBasicAuth;
  req_cookies : option CookieJar;
  verify : bool;
  stream : bool;
  data : option bytes
}.

(** The remote side either answers or the transport fails. *)
Inductive Reply : Type :=
| Answered (r : Response)
| Unreachable.

Inductive Mode : Type := RB | WB.

(** What an operation does to the outside world, in order. *)
Inductive Event : Type :=
| EvHttp (rq : Request) (rp : Reply)
| EvOpen (p : string) (mode : Mode) (opened : bool)
| EvWrite (p : string) (chunk : bytes)
| EvClose (p : string).

(** The world an operation runs in: the state of the remote server and the
    local files. *)
Record World (St : Type) : Type := mkWorld {
  remote : St;
  files : gmap string bytes
}.
Arguments mkWorld {St} remote files.
Arguments remote {St} w.
Arguments files {St} w.

(** ** JSON access as Python performs it *)

(** [r.json()] *)
Definition response_json (r : Response) : result json :=
  match json_body r with
  | Some j => Ok j
  | None => Raised JSONDecodeError
  end.

(** [j[key]] for a string key: only a dict can be indexed by a string. *)
Definition getitem (j : json) (key : string) : result json :=
  match j with
  | JObj m =>
      match m !! key with
      | Some v => Ok v
      | None => Raised (KeyError key)
      end
  | _ => Raised TypeError
  end.

(** [for x in j]: the items of a list, the keys of a dict, the characters
    of a string; anything else is not iterable. *)
Definition py_iter (j : json) : result (list json) :=
  match j with
  | JArr items => Ok items
  | JObj m => Ok (JStr <$> (map_to_list m).*1)
  | JStr s => Ok (JStr <$> PyStr.chars s)
  | _ => Raised TypeError
  end.

(** [v == s] for a [str] [s]: exact, case-sensitive equality of strings;
    a value of another type is never equal to a string. *)
Definition py_eq_str (v : json) (s : string) : bool :=
  match v with
  | JStr t => String.eqb t s
  | _ => false
  end.

(** The existence loop of [Http.send]:
    [found = False; for e in items: if e[key] == value: found = True; break] *)
Fixpoint exists_loop (key value : string) (items : list json) : result bool :=
  match items with
  | [] => Ok false
  | e :: rest =>
      match getitem e key with
      | Raised x => Raised x
      | Ok v => if py_eq_str v value then Ok true else exists_loop key value rest
      end
  end.

(** [r.json()['ResultSet']['Result']] *)
Definition result_set (r : Response) : result json :=
  match response_json r with
  | Raised x => Raised x
  | Ok j =>
      match getitem j "ResultSet" with
      | Raised x => Raised x
      | Ok rs => getitem rs "Result"
      end
  end.

(** [_auth_method_obj(access)] *)
Definition _auth_method_obj (access : Access) : option HTTPBasicAuth :=
  match auth access with
  | None => None
  | Some a => Some (mkHTTPBasicAuth (username a) (password a))
  end.

(** [r.raise_for_status()] raises for a 4xx or 5xx status only. *)
Definition is_error_status (code : Z) : bool :=
  (400 <=? code) && (code <? 600).

(** ** JSON Schema *)

Inductive JType : Type := TObject | TString | TBoolean.

(** A schema dict, with the keywords the schemas of the connector use.  A
    keyword that is absent stands as its default: no [properties], no
    [required] names, [additionalProperties] allowed.  The [enum]s of the
    connector list strings. *)
Inductive Schema : Type := mkSchema {
  type_ : option JType;
  enum : option (list string);
  properties : list (string * Schema);
  additionalProperties : bool;
  required : list string;
  oneOf : option (list Schema)
}.

Definition has_type (t : JType) (instance : json) : bool :=
  match t, instance with
  | TObject, JObj _ => true
  | TString, JStr _ => true
  | TBoolean, JBool _ => true
  | _, _ => false
  end.

(** An instance equals a string of the [enum] only if it is that string. *)
Definition in_enum (values : list string) (instance : json) : bool :=
  match instance with
  | JStr s => existsb (String.eqb s) values
  | _ => false
  end.

(** The keys of a dict. *)
Definition keys (m : gmap string json) : list string :=
  (map_to_list m).*1.

(** [jsonschema]'s validation: every keyword of the schema holds of the
    instance.  [properties], [additionalProperties] and [required] constrain
    dicts only; [oneOf] asks for exactly one valid sub-schema. *)
Fixpoint is_valid (schema : Schema) (instance : json) : bool :=
  match schema with
  | mkSchema ty en props additional req one =>
      match ty with Some t => has_type t instance | None => true end
      && match en with Some values => in_enum values instance | None => true end
      && match instance with
         | JObj m =>
             forallb (fun '(k, sub) =>
                        match m !! k with
                        | Some v => is_valid sub v
                        | None => true
                        end) props
             && (additional
                 || forallb (fun k => existsb (String.eqb k) props.*1) (keys m))
             && forallb (fun k => match m !! k with
                                  | Some _ => true
                                  | None => false
                                  end) req
         | _ => true
         end
      && match one with
         | Some subs =>
             Nat.eqb (length (List.filter (fun sub => is_valid sub instance) subs)) 1
         | None => true
         end
  end.

(** [jsonschema.validate(instance, schema)] *)
Definition jsonschema_validate (instance : json) (schema : Schema) : result unit :=
  if is_valid schema instance then Ok tt else Raised ValidationError.

Definition string_schema : Schema :=
  mkSchema (Some TString) None [] true [] None.

Definition boolean_schema : Schema :=
  mkSchema (Some TBoolean) None [] true [] None.

Definition container_type_schema : Schema :=
  mkSchema None (Some ["scans"; "reconstructions"; "assessors"]) [] true [] None.

Definition auth_schema : Schema :=
  mkSchema (Some TObject) None
    [("username", string_schema); ("password", string_schema)]
    false
    ["username"; "password"]
    None.

Definition http_send_schema : Schema :=
  mkSchema (Some TObject) None
    [("baseUrl", string_schema);
     ("project", string_schema);
     ("subject", string_schema);
     ("session", string_schema);
     ("containerType", container_type_schema);
     ("container", string_schema);
     ("resource", string_schema);
     ("xsiType", string_schema);
     ("file", string_schema);
     ("upsert", boolean_schema);
     ("auth", auth_schema);
     ("disableSSLVerification", boolean_schema)]
    false
    ["baseUrl"; "project"; "subject"; "session"; "containerType"; "container";
     "xsiType"; "file"; "auth"]
    None.

Definition http_receive_schema : Schema :=
  mkSchema None None [] true []
    (Some
       [mkSchema (Some TObject) None
          [("baseUrl", string_schema);
           ("project", string_schema);
           ("subject", string_schema);
           ("session", string_schema);
           ("containerType", container_type_schema);
           ("container", string_schema);
           ("resource", string_schema);
           ("file", string_schema);
           ("auth", auth_schema);
           ("disableSSLVerification", boolean_schema)]
          false
          ["baseUrl"; "project"; "subject"; "session"; "containerType";
           "container"; "resource"; "file"; "auth"]
          None;
        mkSchema (Some TObject) None
          [("baseUrl", string_schema);
           ("project", string_schema);
           ("subject", string_schema);
           ("session", string_schema);
           ("resource", string_schema);
           ("file", string_schema);
           ("auth", auth_schema);
           ("disableSSLVerification", boolean_schema)]
          false
          ["baseUrl"; "project"; "subject"; "session"; "resource"; "file"; "auth"]
          None]).

(** ** The monad of the two operations *)

(** A computation reads and updates the world, may raise, and reports the
    events it caused. *)
Definition M (St A : Type) : Type :=
  World St -> result A * World St * list Event.

Definition ret {St A} (a : A) : M St A :=
  fun w => (Ok a, w, []).

Definition raise {St A} (e : exn) : M St A :=
  fun w => (Raised e, w, []).

Definition bind {St A B} (m : M St A) (k : A -> M St B) : M St B :=
  fun w =>
    match m w with
    | (Ok a, w1, t1) =>
        match k a w1 with
        | (r, w2, t2) => (r, w2, t1 ++ t2)
        end
    | (Raised e, w1, t1) => (Raised e, w1, t1)
    end.

(** Run [cleanup] after [body] whether or not [body] raised, then deliver
    the outcome of [body] (the exit of a [with] block). *)
Definition finally {St A} (body : M St A) (cleanup : M St unit) : M St A :=
  fun w =>
    match body w with
    | (r, w1, t1) =>
        match cleanup w1 with
        | (_, w2, t2) => (r, w2, t1 ++ t2)
        end
    end.

Definition lift {St A} (r : result A) : M St A :=
  fun w => (r, w, []).

Notation "x <~ m ;; k" := (bind m (fun x => k))
  (at level 100, m at next level, right associativity).
Notation "m ;;; k" := (bind m (fun _ => k))
  (at level 100, right associativity).

Definition outcome {St A} (run : result A * World St * list Event) : result A :=
  run.1.1.
Definition final {St A} (run : result A * World St * list Event) : World St :=
  run.1.2.
Definition trace {St A} (run : result A * World St * list Event) : list Event :=
  run.2.

(** [access[key]] on a key that may be absent. *)
Definition item {St A} (key : string) (field : option A) : M St A :=
  match field with
  | Some v => ret v
  | None => raise (KeyError key)
  end.

(** Truthiness of [access.get(key)] for a boolean property. *)
Definition truthy_flag (o : option bool) : bool :=
  match o with
  | Some true => true
  | _ => false
  end.

(** Truthiness of [access.get(key)] for a string property. *)
Definition truthy_str (o : option string) : bool :=
  match o with
  | Some s => PyStr.truthy s
  | None => false
  end.

(** [r.raise_for_status()] *)
Definition raise_for_status {St} (r : Response) : M St unit :=
  if is_error_status (status_code r) then raise (HTTPError r) else ret tt.

(** Local files. *)

(** [open(p, 'rb')] and reading the file to its end. *)
Definition open_rb {St} (p : string) : M St bytes :=
  fun w =>
    match files w !! p with
    | Some content => (Ok content, w, [EvOpen p RB true])
    | None => (Raised (FileNotFoundError p), w, [EvOpen p RB false])
    end.

(** [open(p, 'wb')]: the file is created, or truncated when it exists. *)
Definition open_wb {St} (p : string) : M St unit :=
  fun w => (Ok tt, mkWorld (remote w) (<[p := []]> (files w)), [EvOpen p WB true]).

(** [f.write(chunk)] *)
Definition write {St} (p : string) (chunk : bytes) : M St unit :=
  fun w =>
    (Ok tt,
     mkWorld (remote w) (<[p := default [] (files w !! p) ++ chunk]> (files w)),
     [EvWrite p chunk]).

Definition close {St} (p : string) : M St unit :=
  fun w => (Ok tt, w, [EvClose p]).

(** [for chunk in r.iter_content(chunk_size=4096): if chunk: f.write(chunk)] *)
Fixpoint write_chunks {St} (p : string) (chunks : list bytes) (broken : bool) : M St unit :=
  match chunks with
  | [] => if broken then raise ChunkedEncodingError else ret tt
  | chunk :: rest =>
      (match chunk with
       | [] => ret tt
       | _ :: _ => write p chunk
       end) ;;;
      write_chunks p rest broken
  end.

Section Connector.

Context {St : Type}.

(** The remote server: any deterministic machine answering requests. *)
Variable srv : St -> Request -> Reply * St.

(** One round trip: [requests.get], [requests.put], [requests.delete]. *)
Definition request (rq : Request) : M St Response :=
  fun w =>
    match srv (remote w) rq with
    | (Answered r, s) => (Ok r, mkWorld s (files w), [EvHttp rq (Answered r)])
    | (Unreachable, s) => (Raised ConnectionError, mkWorld s (files w), [EvHttp rq Unreachable])
    end.

Definition requests_get (u : string) (a : option HTTPBasicAuth)
    (c : option CookieJar) (v s : bool) : M St Response :=
  request (mkRequest GET u a c v s None).

Definition requests_put (u : string) (d : option bytes)
    (c : option CookieJar) (v : bool) : M St Response :=
  request (mkRequest PUT u None c v false d).

Definition requests_delete (u : string) (c : option CookieJar) (v : bool) : M St Response :=
  request (mkRequest DELETE u None c v false None).

(** [Http.receive(access, internal)] *)
Definition receive (access : Access) (internal : Internal) : M St unit :=
  let auth_method_obj := _auth_method_obj access in
  let verify := negb (truthy_flag (disableSSLVerification access)) in
  base_url <~ item "baseUrl" (baseUrl access) ;;
  let base_url := PyStr.rstrip_slash base_url in
  project <~ item "project" (project access) ;;
  subject <~ item "subject" (subject access) ;;
  session <~ item "session" (session access) ;;
  let container_type := containerType access in
  let container := container access in
  resource <~ item "resource" (resource access) ;;
  file <~ item "file" (file access) ;;
  let url :=
    base_url +:+ "/REST/projects/" +:+ project +:+ "/subjects/" +:+ subject
      +:+ "/experiments/" +:+ session +:+ "/resources/" +:+ resource
      +:+ "/files/" +:+ file in
  let url :=
    if truthy_str container_type then
      base_url +:+ "/REST/projects/" +:+ project +:+ "/subjects/" +:+ subject
        +:+ "/experiments/" +:+ session +:+ "/" +:+ PyStr.format_opt container_type
        +:+ "/" +:+ PyStr.format_opt container +:+ "/resources/" +:+ resource
        +:+ "/files/" +:+ file
    else url in
  r <~ requests_get url auth_method_obj None verify true ;;
  raise_for_status r ;;;
  (open_wb (path internal) ;;;
   finally
     (write_chunks (path internal) (content_chunks r) (stream_broken r))
     (close (path internal))) ;;;
  raise_for_status r ;;;
  let cookies := cookies r in
  r <~ requests_delete (base_url +:+ "/data/JSESSION") (Some cookies) verify ;;
  raise_for_status r.

(** [Http.send(access, internal)] *)
Definition send (access : Access) (internal : Internal) : M St unit :=
  let auth_method_obj := _auth_method_obj access in
  let verify := negb (truthy_flag (disableSSLVerification access)) in
  base_url <~ item "baseUrl" (baseUrl access) ;;
  let base_url := PyStr.rstrip_slash base_url in
  project <~ item "project" (project access) ;;
  subject <~ item "subject" (subject access) ;;
  session <~ item "session" (session access) ;;
  container_type <~ item "containerType" (containerType access) ;;
  container <~ item "container" (container access) ;;
  let resource := default "OTHER" (resource access) in
  xsi_type <~ item "xsiType" (xsiType access) ;;
  file <~ item "file" (file access) ;;
  let upsert := upsert access in
  r <~ requests_get
         (base_url +:+ "/REST/projects/" +:+ project +:+ "/subjects/" +:+ subject
            +:+ "/experiments/" +:+ session +:+ "/" +:+ container_type
            +:+ "?format=json")
         auth_method_obj None verify false ;;
  raise_for_status r ;;;
  existing_containers <~ lift (result_set r) ;;
  let cookies := cookies r in
  existing_containers <~ lift (py_iter existing_containers) ;;
  container_exists <~ lift (exists_loop "ID" container existing_containers) ;;
  (if container_exists then
     (if negb (truthy_flag upsert) then
        raise (PyException
                 ("Container " +:+ container +:+ " already exists and upsert is not set."))
      else ret tt) ;;;
     r <~ requests_get
            (base_url +:+ "/REST/projects/" +:+ project +:+ "/subjects/" +:+ subject
               +:+ "/experiments/" +:+ session +:+ "/" +:+ container_type
               +:+ "/" +:+ container +:+ "/resources?format=json")
            None (Some cookies) verify false ;;
     raise_for_status r ;;;
     existing_resources <~ lift (result_set r) ;;
     existing_resources <~ lift (py_iter existing_resources) ;;
     resource_exists <~ lift (exists_loop "label" resource existing_resources) ;;
     (if resource_exists then
        r <~ requests_get
               (base_url +:+ "/REST/projects/" +:+ project +:+ "/subjects/" +:+ subject
                  +:+ "/experiments/" +:+ session +:+ "/" +:+ container_type
                  +:+ "/" +:+ container +:+ "/resources/" +:+ resource
                  +:+ "/files?format=json")
               None (Some cookies) verify false ;;
        raise_for_status r ;;;
        existing_files <~ lift (result_set r) ;;
        existing_files <~ lift (py_iter existing_files) ;;
        file_exists <~ lift (exists_loop "Name" file existing_files) ;;
        (if file_exists then
           (* delete file *)
           r <~ requests_delete
                  (base_url +:+ "/REST/projects/" +:+ project +:+ "/subjects/" +:+ subject
                     +:+ "/experiments/" +:+ session +:+ "/" +:+ container_type
                     +:+ "/" +:+ container +:+ "/resources/" +:+ resource
                     +:+ "/files/" +:+ file)
                  (Some cookies) verify ;;
           raise_for_status r
         else ret tt)
      else ret tt) ;;;
     (* delete container *)
     r <~ requests_delete
            (base_url +:+ "/REST/projects/" +:+ project +:+ "/subjects/" +:+ subject
               +:+ "/experiments/" +:+ session +:+ "/" +:+ container_type
               +:+ "/" +:+ container)
            (Some cookies) verify ;;
     raise_for_status r
   else ret tt) ;;;
  (* create container *)
  r <~ requests_put
         (base_url +:+ "/REST/projects/" +:+ project +:+ "/subjects/" +:+ subject
            +:+ "/experiments/" +:+ session +:+ "/" +:+ container_type
            +:+ "/" +:+ container +:+ "?xsiType=" +:+ xsi_type)
         None (Some cookies) verify ;;
  raise_for_status r ;;;
  (* create file *)
  (f <~ open_rb (path internal) ;;
   finally
     (r <~ requests_put
             (base_url +:+ "/REST/projects/" +:+ project +:+ "/subjects/" +:+ subject
                +:+ "/experiments/" +:+ session +:+ "/" +:+ container_type
                +:+ "/" +:+ container +:+ "/resources/" +:+ resource
                +:+ "/files/" +:+ file +:+ "?inbody=true")
             (Some f) (Some cookies) verify ;;
      raise_for_status r)
     (close (path internal))) ;;;
  (* delete session *)
  r <~ requests_delete (base_url +:+ "/data/JSESSION") (Some cookies) verify ;;
  raise_for_status r.

End Connector.

(** [Http.receive_validate(access)] *)
Definition receive_validate {St} (access : json) : M St unit :=
  lift (jsonschema_validate access http_receive_schema).

(** [Http.send_validate(access)] *)
Definition send_validate {St} (access : json) : M St unit :=
  lift (jsonschema_validate access http_send_schema).

(** ** The wire protocol, as the specification states it *)

Module Wire.

(** [{base}/REST/projects/{p}/subjects/{s}/experiments/{e}/resources/{r}/files/{f}] *)
Definition container_less_file (base p s e r f : string) : string :=
  base +:+ "/REST/projects/" +:+ p +:+ "/subjects/" +:+ s +:+ "/experiments/" +:+ e
    +:+ "/resources/" +:+ r +:+ "/files/" +:+ f.

(** The same with [/{containerType}/{container}] before [/resources]. *)
Definition container_file (base p s e ct c r f : string) : string :=
  base +:+ "/REST/projects/" +:+ p +:+ "/subjects/" +:+ s +:+ "/experiments/" +:+ e
    +:+ "/" +:+ ct +:+ "/" +:+ c +:+ "/resources/" +:+ r +:+ "/files/" +:+ f.

(** [{base}/REST/.../experiments/{e}/{containerType}?format=json] *)
Definition list_containers (base p s e ct : string) : string :=
  base +:+ "/REST/projects/" +:+ p +:+ "/subjects/" +:+ s +:+ "/experiments/" +:+ e
    +:+ "/" +:+ ct +:+ "?format=json".

(** [{base}/REST/.../{containerType}/{container}/resources?format=json] *)
Definition list_resources (base p s e ct c : string) : string :=
  base +:+ "/REST/projects/" +:+ p +:+ "/subjects/" +:+ s +:+ "/experiments/" +:+ e
    +:+ "/" +:+ ct +:+ "/" +:+ c +:+ "/resources?format=json".

(** [{base}/REST/.../resources/{resource}/files?format=json] *)
Definition list_files (base p s e ct c r : string) : string :=
  base +:+ "/REST/projects/" +:+ p +:+ "/subjects/" +:+ s +:+ "/experiments/" +:+ e
    +:+ "/" +:+ ct +:+ "/" +:+ c +:+ "/resources/" +:+ r +:+ "/files?format=json".

(** The container path: [{base}/REST/.../{containerType}/{container}] *)
Definition container_path (base p s e ct c : string) : string :=
  base +:+ "/REST/projects/" +:+ p +:+ "/subjects/" +:+ s +:+ "/experiments/" +:+ e
    +:+ "/" +:+ ct +:+ "/" +:+ c.

(** [PUT .../{containerType}/{container}?xsiType={t}] *)
Definition create_container (base p s e ct c t : string) : string :=
  base +:+ "/REST/projects/" +:+ p +:+ "/subjects/" +:+ s +:+ "/experiments/" +:+ e
    +:+ "/" +:+ ct +:+ "/" +:+ c +:+ "?xsiType=" +:+ t.

(** [PUT .../files/{f}?inbody=true] *)
Definition upload_file (base p s e ct c r f : string) : string :=
  base +:+ "/REST/projects/" +:+ p +:+ "/subjects/" +:+ s +:+ "/experiments/" +:+ e
    +:+ "/" +:+ ct +:+ "/" +:+ c +:+ "/resources/" +:+ r +:+ "/files/" +:+ f
    +:+ "?inbody=true".

(** [DELETE {base}/data/JSESSION] *)
Definition jsession (base : string) : string :=
  base +:+ "/data/JSESSION".

(** A listing body [{ResultSet:{Result:[...]}}]: its entries. *)
Definition entries (r : Response) : option (list json) :=
  match json_body r with
  | Some (JObj top) =>
      match top !! "ResultSet" with
      | Some (JObj rs) =>
          match rs !! "Result" with
          | Some (JArr l) => Some l
          | _ => None
          end
      | _ => None
      end
  | _ => None
  end.

(** The entry is a record that carries the identifier [key]. *)
Definition has_field (key : string) (e : json) : bool :=
  match e with
  | JObj m => match m !! key with Some _ => true | None => false end
  | _ => false
  end.

(** The entry's identifier [key] is exactly the string [value]. *)
Definition field_is (key value : string) (e : json) : bool :=
  match e with
  | JObj m =>
      match m !! key with
      | Some (JStr s) => String.eqb s value
      | _ => false
      end
  | _ => false
  end.

(** Some listed entry has the identifier [key] equal to [value]. *)
Definition lists (key value : string) (r : Response) : bool :=
  match entries r with
  | Some l => existsb (field_is key value) l
  | None => false
  end.

(** A successful listing whose entries all carry the identifier [key]. *)
Definition listing (key : string) (r : Response) : option (list json) :=
  if is_error_status (status_code r) then None
  else
    match entries r with
    | Some l => if forallb (has_field key) l then Some l else None
    | None => None
    end.

(** The listing reports an entry whose [key] equals [value]. *)
Definition reports (key value : string) (r : Response) : bool :=
  match listing key r with
  | Some l => existsb (field_is key value) l
  | None => false
  end.

(** The listing is well formed and reports no entry whose [key] equals
    [value]. *)
Definition reports_none (key value : string) (r : Response) : bool :=
  match listing key r with
  | Some l => negb (existsb (field_is key value) l)
  | None => false
  end.

End Wire.

(** ** The descriptor shapes, as the specification states them *)

Module Shape.

(** What a field of a descriptor holds. *)
Inductive Kind : Type := KString | KBoolean | KContainerType | KCredentials.

Definition is_string (o : option json) : bool :=
  match o with
  | Some (JStr _) => true
  | _ => false
  end.

Definition of_kind (kind : Kind) (v : json) : bool :=
  match kind, v with
  | KString, JStr _ => true
  | KBoolean, JBool _ => true
  | KContainerType, JStr s =>
      bool_decide (s ∈ ["scans"; "reconstructions"; "assessors"])
  | KCredentials, JObj m =>
      is_string (m !! "username") && is_string (m !! "password")
      && bool_decide (dom m ⊆ (list_to_set ["username"; "password"] : gset string))
  | _, _ => false
  end.

(** A description has the shape: it is a dict, each required field is
    there and of its kind, each optional field that is there is of its kind,
    and there is no other field. *)
Definition has_shape (required optional : list (string * Kind)) (access : json) : bool :=
  match access with
  | JObj m =>
      forallb (fun '(k, kind) => from_option (of_kind kind) false (m !! k)) required
      && forallb (fun '(k, kind) => from_option (of_kind kind) true (m !! k)) optional
      && bool_decide (dom m ⊆ (list_to_set (required.*1 ++ optional.*1) : gset string))
  | _ => false
  end.

Definition container_qualified_fields : list (string * Kind) :=
  [("baseUrl", KString); ("project", KString); ("subject", KString);
   ("session", KString); ("containerType", KContainerType);
   ("container", KString); ("resource", KString); ("file", KString);
   ("auth", KCredentials)].

Definition container_less_fields : list (string * Kind) :=
  [("baseUrl", KString); ("project", KString); ("subject", KString);
   ("session", KString); ("resource", KString); ("file", KString);
   ("auth", KCredentials)].

Definition send_fields : list (string * Kind) :=
  [("baseUrl", KString); ("project", KString); ("subject", KString);
   ("session", KString); ("containerType", KContainerType);
   ("container", KString); ("xsiType", KString); ("file", KString);
   ("auth", KCredentials)].

(** The shapes with the optional fields [extra] next to the ones that
    section 4.1 names. *)
Definition receive_with (extra : list (string * Kind)) (access : json) : bool :=
  xorb (has_shape container_qualified_fields extra access)
       (has_shape container_less_fields extra access).

Definition send_with (extra : list (string * Kind)) (access : json) : bool :=
  has_shape send_fields ([("resource", KString); ("upsert", KBoolean)] ++ extra) access.

(** Section 4.1, to the letter: no field but the ones it names. *)
Definition receive_4_1 : json -> bool := receive_with [].
Definition send_4_1 : json -> bool := send_with [].

(** Section 4.1 with the TLS switch of section 3 as an optional field of
    every shape. *)
Definition tls_switch : list (string * Kind) :=
  [("disableSSLVerification", KBoolean)].
Definition receive : json -> bool := receive_with tls_switch.
Definition send : json -> bool := send_with tls_switch.

End Shape.

(** ** Reading traces *)

(** The HTTP calls of a trace: method and URL, in order. *)
Definition calls (tr : list Event) : list (Method * string) :=
  omap (fun e => match e with
                 | EvHttp rq _ => Some (meth rq, url rq)
                 | _ => None
                 end) tr.

(** The requests of a trace, in order. *)
Definition requests_of (tr : list Event) : list Request :=
  omap (fun e => match e with
                 | EvHttp rq _ => Some rq
                 | _ => None
                 end) tr.

(** The step went through: the call was answered with a status that
    [raise_for_status] accepts, the file could be opened. *)
Definition succeeded (e : Event) : bool :=
  match e with
  | EvHttp _ (Answered r) => negb (is_error_status (status_code r))
  | EvHttp _ Unreachable => false
  | EvOpen _ _ opened => opened
  | EvWrite _ _ => true
  | EvClose _ => true
  end.

(** The call was answered with an error status. *)
Definition error_response (e : Event) : bool :=
  match e with
  | EvHttp _ (Answered r) => is_error_status (status_code r)
  | _ => false
  end.

Definition is_close (e : Event) : bool :=
  match e with
  | EvClose _ => true
  | _ => false
  end.

(** A call that changes the remote hierarchy: a [PUT] or a [DELETE] on
    anything but the session endpoint. *)
Definition mutating (base : string) (c : Method * string) : bool :=
  match c.1 with
  | GET => false
  | PUT | DELETE => negb (String.eqb c.2 (Wire.jsession base))
  end.

Definition deleting (base : string) (c : Method * string) : bool :=
  match c.1 with
  | DELETE => negb (String.eqb c.2 (Wire.jsession base))
  | _ => false
  end.

(** The first event is an answered call whose listing has an entry with
    the container ID [c]. *)
Definition container_listed (c : string) (tr : list Event) : bool :=
  match tr with
  | EvHttp _ (Answered r) :: _ => Wire.lists "ID" c r
  | _ => false
  end.

(** ** Descriptor updates *)

Definition with_baseUrl (b : string) (a : Access) : Access :=
  mkAccess (Some b) (project a) (subject a) (session a) (containerType a) (container a)
    (resource a) (xsiType a) (file a) (upsert a) (auth a) (disableSSLVerification a).

Definition with_upsert (u : option bool) (a : Access) : Access :=
  mkAccess (baseUrl a) (project a) (subject a) (session a) (containerType a) (container a)
    (resource a) (xsiType a) (file a) u (auth a) (disableSSLVerification a).

(** A descriptor that carries every key [Http.send] indexes. *)
Definition send_descriptor (b p s e ct c : string) (res : option string)
    (x f : string) (u : option bool) (au : option AuthDict) (ssl : option bool) : Access :=
  mkAccess (Some b) (Some p) (Some s) (Some e) (Some ct) (Some c) res (Some x) (Some f)
    u au ssl.

(** The three container types of the schemas' [enum]. *)
Definition container_types : list string :=
  ["scans"; "reconstructions"; "assessors"].

(** A descriptor of one of the two receive shapes: container-qualified when
    [cont] is [Some (containerType, container)], container-less when it is
    [None]. *)
Definition receive_descriptor (b p s e : string) (cont : option (string * string))
    (r f : string) (au : AuthDict) (ssl : option bool) : Access :=
  mkAccess (Some b) (Some p) (Some s) (Some e) (fst <$> cont) (snd <$> cont)
    (Some r) None (Some f) None (Some au) ssl.

(** The container type, when there is one, is one the schema allows. *)
Definition valid_container (cont : option (string * string)) : bool :=
  match cont with
  | Some (ct, _) => existsb (String.eqb ct) container_types
  | None => true
  end.

(** ** A scripted server and the example of the specification *)

Module Example.

(** A server that answers the calls it gets from a script of replies, in
    order, and cannot be reached once the script is over. *)
Definition scripted (script : list Reply) (rq : Request) : Reply * list Reply :=
  match script with
  | [] => (Unreachable, [])
  | rp :: script => (rp, script)
  end.

Definition credentials : AuthDict := mkAuthDict "alice" "secret".

(** Section 8: container SCAN1 of type scans, resource DICOM, file a.dcm. *)
Definition upload (u : option bool) : Access :=
  send_descriptor "https://xnat.example.org/" "P1" "S1" "E1" "scans" "SCAN1"
    (Some "DICOM") "xnat:mrScanData" "a.dcm" u (Some credentials) None.

Definition download : Access :=
  receive_descriptor "https://xnat.example.org/" "P1" "S1" "E1"
    (Some ("scans", "SCAN1")) "DICOM" "a.dcm" credentials None.

Definition internal : Internal := mkInternal "/data/a.dcm".

Definition content : bytes := [Byte.x44; Byte.x49; Byte.x43; Byte.x4d].

Definition jar : CookieJar := [("JSESSIONID", "5E7A")].

Definition ok : Reply := Answered (mkResponse 200 None [] false []).

Definition forbidden : Response := mkResponse 403 None [] false [].

Definition not_found : Response := mkResponse 404 None [] false [].

(** [{"ResultSet": {"Result": [{key: value}]}}], with the session cookie. *)
Definition lists (key value : string) : Response :=
  mkResponse 200
    (Some (JObj {[ "ResultSet" :=
                     JObj {[ "Result" := JArr [JObj {[ key := JStr value ]}] ]} ]}))
    [] false jar.

Definition world (script : list Reply) : World (list Reply) :=
  mkWorld script {[ "/data/a.dcm" := content ]}.

(** SCAN1 exists, with resource DICOM holding a.dcm; every call succeeds. *)
Definition replace_script : list Reply :=
  [Answered (lists "ID" "SCAN1"); Answered (lists "label" "DICOM");
   Answered (lists "Name" "a.dcm"); ok; ok; ok; ok; ok].

(** Only SCAN2 exists; every call succeeds. *)
Definition create_script : list Reply :=
  [Answered (lists "ID" "SCAN2"); ok; ok; ok].

(** Only SCAN2 exists; the container is created, the upload is refused. *)
Definition refused_script : list Reply :=
  [Answered (lists "ID" "SCAN2"); ok; Answered forbidden; ok].

(** A send descriptor as JSON, with the TLS switch. *)
Definition upload_json : json :=
  JObj (list_to_map
    [("baseUrl", JStr "https://xnat.example.org/"); ("project", JStr "P1");
     ("subject", JStr "S1"); ("session", JStr "E1");
     ("containerType", JStr "scans"); ("container", JStr "SCAN1");
     ("xsiType", JStr "xnat:mrScanData"); ("file", JStr "a.dcm");
     ("auth", JObj (list_to_map [("username", JStr "alice");
                                 ("password", JStr "secret")]));
     ("disableSSLVerification", JBool true)]).

End Example.

(** ** Trailing slashes *)

Lemma rstrip_slashes n : PyStr.rstrip_slash (PyStr.slashes n) = "".
Proof. induction n as [|n IH]; simpl; [done | by rewrite IH]. Qed.

Lemma rstrip_slash_append (b : string) (n : nat) :
  PyStr.rstrip_slash (b +:+ PyStr.slashes n) = PyStr.rstrip_slash b.
Proof.
  induction b as [|c b IH]; simpl.
  - apply rstrip_slashes.
  - by rewrite IH.
Qed.

(** ** Listings: the loop of the code against the wire format *)

Lemma exists_loop_well_formed (key value : string) (l : list json) :
  forallb (Wire.has_field key) l = true ->
  exists_loop key value l = Ok (existsb (Wire.field_is key value) l).
Proof.
  induction l as [|e l IH]; simpl; [done|].
  intros [He Hl]%andb_prop. specialize (IH Hl).
  destruct e as [| | | |?|m]; simpl in *; try done.
  destruct (m !! key) as [v|]; [|done].
  destruct v as [| | |t| |]; simpl; try done.
  destruct (String.eqb _ _); done.
Qed.

Lemma listing_read (key value : string) (r : Response) (l : list json) :
  Wire.listing key r = Some l ->
  is_error_status (status_code r) = false
  /\ result_set r = Ok (JArr l)
  /\ exists_loop key value l = Ok (existsb (Wire.field_is key value) l).
Proof.
  unfold Wire.listing, Wire.entries, result_set, response_json.
  destruct (is_error_status (status_code r)); [done|].
  destruct (json_body r) as [[| | | | |top]|]; try done.
  simpl. destruct (top !! "ResultSet") as [[| | | | |rs]|]; try done.
  simpl. destruct (rs !! "Result") as [[| | | |items|]|]; try done.
  destruct (forallb (Wire.has_field key) items) eqn:Hwf; [|done].
  intros [= ->]. auto using exists_loop_well_formed.
Qed.

(** Without the wire format: the loop finds the identifier only if some
    entry carries it. *)
Lemma exists_loop_found (key value : string) (l : list json) :
  exists_loop key value l = Ok true ->
  existsb (Wire.field_is key value) l = true.
Proof.
  induction l as [|e l IH]; simpl; [done|].
  destruct e as [| | | |?|m]; simpl; try done.
  destruct (m !! key) as [v|]; [|done].
  destruct v as [| | |t| |]; simpl; auto.
  destruct (String.eqb _ _); auto.
Qed.

Lemma exists_loop_strings (key value : string) (l : list string) :
  exists_loop key value (JStr <$> l) <> Ok true.
Proof. by destruct l. Qed.

(** Whatever the shape of the body, the loop of the code answers [True]
    only when the body is a listing with a matching entry. *)
Lemma loop_found_listed (key value : string) (r : Response) (j : json)
    (items : list json) :
  result_set r = Ok j ->
  py_iter j = Ok items ->
  exists_loop key value items = Ok true ->
  Wire.lists key value r = true.
Proof.
  unfold Wire.lists, Wire.entries, result_set, response_json.
  destruct (json_body r) as [[| | | | |top]|]; try done.
  simpl. destruct (top !! "ResultSet") as [[| | | | |rs]|]; try done.
  simpl. destruct (rs !! "Result") as [v|]; [|done].
  intros [= ->]. destruct j as [| | |t|l|m]; simpl; try done.
  - intros [= <-] H. by apply exists_loop_strings in H.
  - intros [= <-]. apply exists_loop_found.
  - intros [= <-] H. by apply exists_loop_strings in H.
Qed.

Lemma length_append (s t : string) :
  String.length (s +:+ t) = (String.length s + String.length t)%nat.
Proof. induction s as [|ch s IH]; simpl; [done | by rewrite IH]. Qed.

(** The two URL shapes of a download never coincide. *)
Lemma shapes_differ (base p s e ct c r f : string) :
  Wire.container_file base p s e ct c r f <> Wire.container_less_file base p s e r f.
Proof.
  unfold Wire.container_file, Wire.container_less_file.
  intros H. apply (f_equal String.length) in H.
  rewrite !length_append in H. simpl in H. lia.
Qed.

(** No path of the REST hierarchy is the session endpoint. *)
Lemma rest_is_not_session (base tail : string) :
  String.eqb (base +:+ "/REST/projects/" +:+ tail) (Wire.jsession base) = false.
Proof.
  apply String.eqb_neq. unfold Wire.jsession.
  induction base as [|ch base IH]; simpl; [discriminate|].
  intros [= H]. auto.
Qed.

(** ** Equations of the monad *)

(** A run with one more event in front. *)
Definition after {St A} (e : Event) (run : result A * World St * list Event)
    : result A * World St * list Event :=
  (outcome run, final run, e :: trace run).

Section Equations.

Context {St : Type}.
Variable srv : St -> Request -> Reply * St.
Context {A B : Type}.
Implicit Types (k : A -> M St B) (w : World St).

Lemma run_eta (run : result B * World St * list Event) :
  (outcome run, final run, trace run) = run.
Proof. by destruct run as [[??]?]. Qed.

Lemma bind_ret (a : A) k w : bind (ret a) k w = k a w.
Proof. unfold bind, ret. by destruct (k a w) as [[??]?]. Qed.

Lemma bind_raise (e : exn) k w : bind (raise e) k w = (Raised e, w, []).
Proof. done. Qed.

Lemma bind_lift (r : result A) k w :
  bind (lift r) k w = match r with
                      | Ok a => k a w
                      | Raised e => (Raised e, w, [])
                      end.
Proof. destruct r; [apply bind_ret | done]. Qed.

Lemma bind_item (key : string) (o : option A) k w :
  bind (item key o) k w = match o with
                          | Some v => k v w
                          | None => (Raised (KeyError key), w, [])
                          end.
Proof. destruct o; [apply bind_ret | done]. Qed.

Lemma bind_if (c : bool) (m1 m2 : M St A) k w :
  bind (if c then m1 else m2) k w = if c then bind m1 k w else bind m2 k w.
Proof. by destruct c. Qed.

Lemma bind_bind {C} (m : M St C) (f : C -> M St A) k w :
  bind (bind m f) k w = bind m (fun c => bind (f c) k) w.
Proof.
  unfold bind. destruct (m w) as [[[c|e] w1] t1]; [|done].
  destruct (f c w1) as [[[a|e] w2] t2]; [|done].
  destruct (k a w2) as [[r w3] t3]. by rewrite <-app_assoc.
Qed.

End Equations.

Section Steps.

Context {St : Type}.
Variable srv : St -> Request -> Reply * St.
Context {B : Type}.
Implicit Types (w : World St).

Lemma bind_raise_for_status (r : Response) (k : unit -> M St B) w :
  bind (raise_for_status r) k w
  = if is_error_status (status_code r) then (Raised (HTTPError r), w, [])
    else k tt w.
Proof.
  unfold raise_for_status.
  destruct (is_error_status (status_code r)); [done | apply bind_ret].
Qed.

Lemma bind_request (rq : Request) (k : Response -> M St B) w :
  bind (request srv rq) k w
  = match srv (remote w) rq with
    | (Answered r, s) =>
        after (EvHttp rq (Answered r)) (k r (mkWorld s (files w)))
    | (Unreachable, s) =>
        (Raised ConnectionError, mkWorld s (files w), [EvHttp rq Unreachable])
    end.
Proof.
  unfold bind, request, after.
  destruct (srv (remote w) rq) as [[r|] s]; [|done].
  by destruct (k r _) as [[??]?].
Qed.

Lemma bind_get u a c v s (k : Response -> M St B) w :
  bind (requests_get srv u a c v s) k w
  = match srv (remote w) (mkRequest GET u a c v s None) with
    | (Answered r, st) =>
        after (EvHttp (mkRequest GET u a c v s None) (Answered r))
          (k r (mkWorld st (files w)))
    | (Unreachable, st) =>
        (Raised ConnectionError, mkWorld st (files w),
         [EvHttp (mkRequest GET u a c v s None) Unreachable])
    end.
Proof. apply bind_request. Qed.

Lemma bind_put u d c v (k : Response -> M St B) w :
  bind (requests_put srv u d c v) k w
  = match srv (remote w) (mkRequest PUT u None c v false d) with
    | (Answered r, st) =>
        after (EvHttp (mkRequest PUT u None c v false d) (Answered r))
          (k r (mkWorld st (files w)))
    | (Unreachable, st) =>
        (Raised ConnectionError, mkWorld st (files w),
         [EvHttp (mkRequest PUT u None c v false d) Unreachable])
    end.
Proof. apply bind_request. Qed.

Lemma bind_delete u c v (k : Response -> M St B) w :
  bind (requests_delete srv u c v) k w
  = match srv (remote w) (mkRequest DELETE u None c v false None) with
    | (Answered r, st) =>
        after (EvHttp (mkRequest DELETE u None c v false None) (Answered r))
          (k r (mkWorld st (files w)))
    | (Unreachable, st) =>
        (Raised ConnectionError, mkWorld st (files w),
         [EvHttp (mkRequest DELETE u None c v false None) Unreachable])
    end.
Proof. apply bind_request. Qed.

Lemma bind_open_rb (p : string) (k : bytes -> M St B) w :
  bind (open_rb p) k w
  = match files w !! p with
    | Some content => after (EvOpen p RB true) (k content w)
    | None => (Raised (FileNotFoundError p), w, [EvOpen p RB false])
    end.
Proof.
  unfold bind, open_rb, after.
  destruct (files w !! p) as [content|]; [|done].
  by destruct (k content w) as [[??]?].
Qed.

Lemma bind_open_wb (p : string) (k : unit -> M St B) w :
  bind (open_wb p) k w
  = after (EvOpen p WB true) (k tt (mkWorld (remote w) (<[p := []]> (files w)))).
Proof.
  unfold bind, open_wb, after. by destruct (k tt _) as [[??]?].
Qed.


(** The body of the [with] block of [Http.send]: the upload and its
    status check, then the file is closed whatever happened. *)
Lemma bind_upload u d c v (p : string) (k : unit -> M St B) w :
  bind (finally (r <~ requests_put srv u d c v ;; raise_for_status r) (close p)) k w
  = match srv (remote w) (mkRequest PUT u None c v false d) with
    | (Answered r, st) =>
        if is_error_status (status_code r) then
          (Raised (HTTPError r), mkWorld st (files w),
           [EvHttp (mkRequest PUT u None c v false d) (Answered r); EvClose p])
        else
          after (EvHttp (mkRequest PUT u None c v false d) (Answered r))
            (after (EvClose p) (k tt (mkWorld st (files w))))
    | (Unreachable, st) =>
        (Raised ConnectionError, mkWorld st (files w),
         [EvHttp (mkRequest PUT u None c v false d) Unreachable; EvClose p])
    end.
Proof.
  unfold bind, finally, close, requests_put, request, raise_for_status, after.
  destruct (srv _ _) as [[r|] st]; [|done].
  destruct (is_error_status (status_code r)); [done|].
  cbn. by destruct (k tt _) as [[??]?].
Qed.

Lemma finally_close (body : M St B) (p : string) w :
  finally body (close p) w
  = (outcome (body w), final (body w), trace (body w) ++ [EvClose p]).
Proof. unfold finally, close. by destruct (body w) as [[??]?]. Qed.

(** The last statement pair of both operations: the session DELETE and
    its status check. *)
Lemma run_delete_checked u c v (w : World St) :
  bind (requests_delete srv u c v) (fun r => raise_for_status r) w
  = match srv (remote w) (mkRequest DELETE u None c v false None) with
    | (Answered r, st) =>
        (if is_error_status (status_code r) then Raised (HTTPError r) else Ok tt,
         mkWorld st (files w),
         [EvHttp (mkRequest DELETE u None c v false None) (Answered r)])
    | (Unreachable, st) =>
        (Raised ConnectionError, mkWorld st (files w),
         [EvHttp (mkRequest DELETE u None c v false None) Unreachable])
    end.
Proof.
  unfold bind, requests_delete, request, raise_for_status.
  destruct (srv _ _) as [[r|] st]; [|done].
  by destruct (is_error_status (status_code r)).
Qed.

End Steps.

(** ** The abort discipline *)

(** No call of the trace was answered with an error status. *)
Definition clean (tr : list Event) : bool :=
  forallb (fun e => negb (error_response e)) tr.

(** A run either saw no error status at all, or stopped at the first one:
    nothing but the closing of an open file follows it, and the run raises
    the [HTTPError] that carries that very response. *)
Definition aborts {St A} (run : result A * World St * list Event) : Prop :=
  clean (trace run) = true
  \/ exists pre rq r post,
      trace run = pre ++ EvHttp rq (Answered r) :: post
      /\ clean pre = true
      /\ is_error_status (status_code r) = true
      /\ forallb is_close post = true
      /\ outcome run = Raised (HTTPError r).

Definition Aborts {St A} (m : M St A) : Prop :=
  forall w, aborts (m w).

Lemma clean_app (t1 t2 : list Event) :
  clean (t1 ++ t2) = clean t1 && clean t2.
Proof. apply forallb_app. Qed.

Lemma clean_answered (rq : Request) (r : Response) (t : list Event) :
  clean (EvHttp rq (Answered r) :: t)
  = negb (is_error_status (status_code r)) && clean t.
Proof. done. Qed.

Lemma closes_clean (t : list Event) :
  forallb is_close t = true -> clean t = true.
Proof.
  induction t as [|e t IH]; simpl; [done|].
  intros [He Ht]%andb_prop. rewrite (IH Ht). by destruct e.
Qed.

Lemma aborts_ok_clean {St A} (run : result A * World St * list Event) (a : A) :
  aborts run -> outcome run = Ok a -> clean (trace run) = true.
Proof. intros [H|(pre & rq & r & post & _ & _ & _ & _ & Ho)] Hok; congruence. Qed.

(** The error response of an aborted run is where [aborts] says it is. *)
Lemma first_error_unique (pre0 pre post0 post : list Event) (e0 e : Event) :
  pre0 ++ e0 :: post0 = pre ++ e :: post ->
  clean pre0 = true -> forallb is_close post0 = true ->
  error_response e = true ->
  pre0 = pre /\ e0 = e /\ post0 = post.
Proof.
  revert pre. induction pre0 as [|x pre0 IH]; intros [|y pre]; simpl.
  - by intros [= -> ->].
  - intros [= -> ->] _ Hc He. apply closes_clean in Hc.
    rewrite clean_app in Hc. simpl in Hc. rewrite He in Hc.
    by rewrite andb_false_r in Hc.
  - intros [= -> _] Hc _ He. by rewrite He in Hc.
  - intros [= -> H] [_ Hc]%andb_prop Hp He.
    by destruct (IH _ H Hc Hp He) as (-> & -> & ->).
Qed.

Lemma aborts_at_error {St A} (run : result A * World St * list Event)
    (pre post : list Event) (rq : Request) (r : Response) :
  aborts run ->
  trace run = pre ++ EvHttp rq (Answered r) :: post ->
  is_error_status (status_code r) = true ->
  clean pre = true /\ forallb is_close post = true /\ outcome run = Raised (HTTPError r).
Proof.
  intros [Hc|(pre0 & rq0 & r0 & post0 & Ht & Hc & He0 & Hp & Ho)] Htr He.
  - rewrite Htr, clean_app in Hc. simpl in Hc. rewrite He in Hc.
    by rewrite andb_false_r in Hc.
  - rewrite Ht in Htr.
    destruct (first_error_unique _ _ _ _ _ _ Htr Hc Hp He) as (-> & [= -> ->] & ->).
    done.
Qed.

Lemma closes_no_requests (t : list Event) :
  forallb is_close t = true -> requests_of t = [].
Proof.
  induction t as [|e t IH]; simpl; [done|].
  intros [He Ht]%andb_prop. destruct e; try done. by apply IH.
Qed.

Section Discipline.

Context {St : Type}.
Variable srv : St -> Request -> Reply * St.

Lemma Aborts_silent {A} (m : M St A) :
  (forall w, clean (trace (m w)) = true) -> Aborts m.
Proof. intros H w. left. apply H. Qed.

Lemma Aborts_ret {A} (a : A) : Aborts (St:=St) (ret a).
Proof. by apply Aborts_silent. Qed.

Lemma Aborts_raise {A} (e : exn) : Aborts (St:=St) (A:=A) (raise e).
Proof. by apply Aborts_silent. Qed.

Lemma Aborts_lift {A} (r : result A) : Aborts (St:=St) (lift r).
Proof. by apply Aborts_silent. Qed.

Lemma Aborts_item {A} (key : string) (o : option A) : Aborts (St:=St) (item key o).
Proof. apply Aborts_silent. by destruct o. Qed.

Lemma Aborts_raise_for_status (r : Response) : Aborts (St:=St) (raise_for_status r).
Proof.
  apply Aborts_silent. intros w. unfold raise_for_status.
  by destruct (is_error_status (status_code r)).
Qed.

Lemma Aborts_open_rb (p : string) : Aborts (St:=St) (open_rb p).
Proof.
  apply Aborts_silent. intros w. unfold open_rb.
  by destruct (files w !! p).
Qed.

Lemma Aborts_open_wb (p : string) : Aborts (St:=St) (open_wb p).
Proof. by apply Aborts_silent. Qed.

Lemma Aborts_if {A} (c : bool) (m1 m2 : M St A) :
  Aborts m1 -> Aborts m2 -> Aborts (if c then m1 else m2).
Proof. by destruct c. Qed.

Lemma Aborts_bind {A B} (m : M St A) (k : A -> M St B) :
  Aborts m -> (forall a, Aborts (k a)) -> Aborts (bind m k).
Proof.
  intros Hm Hk w. specialize (Hm w). unfold bind.
  destruct (m w) as [[[a|e] w1] t1] eqn:Em; cycle 1.
  { destruct Hm as [Hc|(pre & rq & r & post & Ht & Hc & He & Hp & Ho)].
    - by left.
    - right. exists pre, rq, r, post. cbn [trace outcome final fst snd after] in *. by injection Ho as ->. }
  pose proof (aborts_ok_clean _ a Hm eq_refl) as Hc1. cbn [trace outcome final fst snd after] in Hc1.
  specialize (Hk a w1). destruct (k a w1) as [[r2 w2] t2].
  destruct Hk as [Hc2|(pre & rq & r & post & Ht & Hc & He & Hp & Ho)]; cbn [trace outcome final fst snd after] in *.
  - left. cbn [trace outcome final fst snd after]. by rewrite clean_app, Hc1, Hc2.
  - right. exists (t1 ++ pre), rq, r, post. cbn [trace outcome final fst snd after].
    rewrite Ht, clean_app, Hc1, Hc, <-app_assoc. done.
Qed.

(** A call followed by its status check, then the rest. *)
Lemma Aborts_call {B} (rq : Request) (k : Response -> M St B) :
  (forall r, Aborts (k r)) ->
  Aborts (r <~ request srv rq ;; raise_for_status r ;;; k r).
Proof.
  intros Hk w. rewrite bind_request.
  destruct (srv (remote w) rq) as [[r|] st]; [|by left].
  rewrite bind_raise_for_status.
  destruct (is_error_status (status_code r)) eqn:He.
  - right. by exists [], rq, r, [].
  - destruct (Hk r (mkWorld st (files w)))
      as [Hc|(pre & rq' & r' & post & Ht & Hc & He' & Hp & Ho)].
    + left. cbn [trace outcome final fst snd after].
      by rewrite clean_answered, He.
    + right. exists (EvHttp rq (Answered r) :: pre), rq', r', post.
      cbn [trace outcome final fst snd after].
      by rewrite Ht, clean_answered, He.
Qed.

(** A call followed by its status check, at the end of a block. *)
Lemma Aborts_call_last (rq : Request) :
  Aborts (r <~ request srv rq ;; raise_for_status r).
Proof.
  intros w. unfold bind, request, raise_for_status.
  destruct (srv (remote w) rq) as [[r|] st]; [|by left].
  destruct (is_error_status (status_code r)) eqn:He.
  - right. by exists [], rq, r, [].
  - left. cbn. by rewrite He.
Qed.

(** The exit of a [with] block only closes the file. *)
Lemma Aborts_finally_close {A} (body : M St A) (p : string) :
  Aborts body -> Aborts (finally body (close p)).
Proof.
  intros Hb w. rewrite finally_close.
  destruct (Hb w) as [Hc|(pre & rq & r & post & Ht & Hc & He & Hp & Ho)].
  - left. cbn [trace outcome final fst snd after]. by rewrite clean_app, Hc.
  - right. exists pre, rq, r, (post ++ [EvClose p]). cbn [trace outcome final fst snd after].
    rewrite Ht, <-app_assoc, forallb_app, Hp. done.
Qed.

Lemma Aborts_write_chunks (p : string) (chunks : list bytes) (broken : bool) :
  Aborts (St:=St) (write_chunks p chunks broken).
Proof.
  induction chunks as [|chunk chunks IH]; simpl.
  - destruct broken; [apply Aborts_raise | apply Aborts_ret].
  - apply Aborts_bind; [|done].
    destruct chunk; [apply Aborts_ret | by apply Aborts_silent].
Qed.

Ltac discipline :=
  repeat first
    [ apply Aborts_ret | apply Aborts_raise | apply Aborts_lift
    | apply Aborts_item | apply Aborts_raise_for_status
    | apply Aborts_open_rb | apply Aborts_open_wb | apply Aborts_write_chunks
    | apply Aborts_call; intros ?
    | apply Aborts_call_last
    | apply Aborts_finally_close
    | apply Aborts_if
    | apply Aborts_bind; [|intros ?] ].

(** Both operations follow the discipline. *)
Lemma Aborts_receive (a : Access) (i : Internal) : Aborts (receive srv a i).
Proof.
  unfold receive, requests_get, requests_put, requests_delete; cbv zeta.
  discipline.
Qed.

Lemma Aborts_send (a : Access) (i : Internal) : Aborts (send srv a i).
Proof.
  unfold send, requests_get, requests_put, requests_delete; cbv zeta.
  discipline.
Qed.

End Discipline.

(** ** What every call of a run carries *)

(** Every request the computation sends satisfies [P]. *)
Definition Every {St A} (P : Request -> Prop) (m : M St A) : Prop :=
  forall w, Forall P (requests_of (trace (m w))).

Lemma requests_of_app (t1 t2 : list Event) :
  requests_of (t1 ++ t2) = requests_of t1 ++ requests_of t2.
Proof. apply omap_app. Qed.

Section Calls.

Context {St : Type}.
Variable srv : St -> Request -> Reply * St.
Variable P : Request -> Prop.

Lemma Every_silent {A} (m : M St A) :
  (forall w, requests_of (trace (m w)) = []) -> Every P m.
Proof. intros H w. rewrite H. constructor. Qed.

Lemma Every_ret {A} (a : A) : Every (St:=St) P (ret a).
Proof. by apply Every_silent. Qed.

Lemma Every_raise {A} (e : exn) : Every (St:=St) (A:=A) P (raise e).
Proof. by apply Every_silent. Qed.

Lemma Every_lift {A} (r : result A) : Every (St:=St) P (lift r).
Proof. by apply Every_silent. Qed.

Lemma Every_raise_for_status (r : Response) : Every (St:=St) P (raise_for_status r).
Proof.
  apply Every_silent. intros w. unfold raise_for_status.
  by destruct (is_error_status (status_code r)).
Qed.

Lemma Every_open_rb (p : string) : Every (St:=St) P (open_rb p).
Proof.
  apply Every_silent. intros w. unfold open_rb.
  by destruct (files w !! p).
Qed.

Lemma Every_open_wb (p : string) : Every (St:=St) P (open_wb p).
Proof. by apply Every_silent. Qed.

Lemma Every_close (p : string) : Every (St:=St) P (close p).
Proof. by apply Every_silent. Qed.

Lemma Every_if {A} (c : bool) (m1 m2 : M St A) :
  Every P m1 -> Every P m2 -> Every P (if c then m1 else m2).
Proof. by destruct c. Qed.

Lemma Every_bind {A B} (m : M St A) (k : A -> M St B) :
  Every P m -> (forall a, Every P (k a)) -> Every P (bind m k).
Proof.
  intros Hm Hk w. specialize (Hm w). unfold bind.
  destruct (m w) as [[[a|e] w1] t1]; [|done].
  specialize (Hk a w1). destruct (k a w1) as [[r2 w2] t2].
  cbn [trace outcome final fst snd] in *.
  rewrite requests_of_app. by apply Forall_app.
Qed.

Lemma Every_finally {A} (body : M St A) (cleanup : M St unit) :
  Every P body -> Every P cleanup -> Every P (finally body cleanup).
Proof.
  intros Hb Hc w. specialize (Hb w). unfold finally.
  destruct (body w) as [[r w1] t1].
  specialize (Hc w1). destruct (cleanup w1) as [[r2 w2] t2].
  cbn [trace outcome final fst snd] in *.
  rewrite requests_of_app. by apply Forall_app.
Qed.

Lemma Every_write_chunks (p : string) (chunks : list bytes) (broken : bool) :
  Every (St:=St) P (write_chunks p chunks broken).
Proof.
  induction chunks as [|chunk chunks IH]; simpl.
  - destruct broken; [apply Every_raise | apply Every_ret].
  - apply Every_bind; [|done].
    destruct chunk; [apply Every_ret | by apply Every_silent].
Qed.

Lemma Every_request (rq : Request) : P rq -> Every P (request srv rq).
Proof.
  intros H w. unfold request.
  destruct (srv (remote w) rq) as [[r|] st]; by repeat constructor.
Qed.

End Calls.

Ltac every :=
  repeat first
    [ apply Every_ret | apply Every_raise | apply Every_lift
    | apply Every_raise_for_status
    | apply Every_open_rb | apply Every_open_wb | apply Every_close
    | apply Every_write_chunks
    | apply Every_request
    | apply Every_finally
    | apply Every_if
    | apply Every_bind; [|intros ?] ].

(** ** Validation against the shapes *)

Lemma bool_decide_of_iff (b : bool) (P : Prop) `{Decision P} :
  (b = true <-> P) -> b = bool_decide P.
Proof.
  intros [H1 H2]. destruct b; symmetry.
  - by apply bool_decide_eq_true_2, H1.
  - apply bool_decide_eq_false_2. intros HP. by specialize (H2 HP).
Qed.

Lemma existsb_eqb_elem_of (k : string) (names : list string) :
  existsb (String.eqb k) names = true <-> k ∈ names.
Proof.
  rewrite existsb_exists. split.
  - intros (x & Hx & ->%String.eqb_eq). by apply list_elem_of_In.
  - intros Hk. exists k. split; [by apply list_elem_of_In | apply String.eqb_refl].
Qed.

(** [additionalProperties: False] says that the keys are among the
    property names. *)
Lemma no_additional (names : list string) (m : gmap string json) :
  forallb (fun k => existsb (String.eqb k) names) (keys m)
  = bool_decide (dom m ⊆ (list_to_set names : gset string)).
Proof.
  apply bool_decide_of_iff. rewrite forallb_forall. split.
  - intros H k [v Hv]%elem_of_dom. apply elem_of_list_to_set.
    apply existsb_eqb_elem_of, H, list_elem_of_In.
    unfold keys. apply list_elem_of_fmap. exists (k, v).
    split; [done | by apply elem_of_map_to_list].
  - intros H k Hk%list_elem_of_In. apply existsb_eqb_elem_of.
    unfold keys in Hk. apply list_elem_of_fmap in Hk as ([k' v] & -> & Hkv).
    apply elem_of_map_to_list in Hkv.
    apply (elem_of_list_to_set (C:=gset string)), H, elem_of_dom. by exists v.
Qed.

Lemma valid_string (v : json) :
  is_valid string_schema v = Shape.of_kind Shape.KString v.
Proof. by destruct v. Qed.

Lemma valid_boolean (v : json) :
  is_valid boolean_schema v = Shape.of_kind Shape.KBoolean v.
Proof. by destruct v. Qed.

Lemma valid_container_type (v : json) :
  is_valid container_type_schema v = Shape.of_kind Shape.KContainerType v.
Proof.
  destruct v as [| | |s| |]; try done. cbn.
  rewrite !andb_true_r. apply bool_decide_of_iff.
  rewrite <-existsb_eqb_elem_of. cbn. done.
Qed.
(** Validation of a dict against a schema of [type: object]. *)
Lemma is_valid_object (props : list (string * Schema)) (additional : bool)
    (req : list string) (m : gmap string json) :
  is_valid (mkSchema (Some TObject) None props additional req None) (JObj m)
  = forallb (fun '(k, sub) =>
               match m !! k with
               | Some v => is_valid sub v
               | None => true
               end) props
    && (additional || forallb (fun k => existsb (String.eqb k) props.*1) (keys m))
    && forallb (fun k => match m !! k with
                         | Some _ => true
                         | None => false
                         end) req.
Proof. cbn [is_valid has_type andb]. by rewrite andb_true_r. Qed.

Lemma is_string_kind (o : option json) :
  Shape.is_string o = from_option (Shape.of_kind Shape.KString) false o.
Proof. by destruct o as [[]|]. Qed.

Create Rewrite HintDb valid.
#[local] Hint Rewrite valid_string valid_boolean valid_container_type : valid.

Ltac fields m :=
  repeat match goal with
    | |- context [m !! ?k] =>
        destruct (m !! k) as [?|];
        cbn [from_option andb];
        autorewrite with valid;
        rewrite ?andb_true_r, ?andb_false_r; try done
    | |- context [Shape.of_kind ?K ?v] =>
        destruct (Shape.of_kind K v);
        cbn [andb]; rewrite ?andb_true_r, ?andb_false_r; try done
    end.

Lemma valid_auth (v : json) :
  is_valid auth_schema v = Shape.of_kind Shape.KCredentials v.
Proof.
  destruct v as [| | | | |m]; try done.
  unfold auth_schema. rewrite is_valid_object.
  cbn [forallb fmap list_fmap fst snd orb Shape.of_kind].
  rewrite no_additional, !is_string_kind.
  fields m.
Qed.

#[local] Hint Rewrite valid_auth : valid.

Lemma send_names :
  (list_to_set
     ["baseUrl"; "project"; "subject"; "session"; "containerType"; "container";
      "resource"; "xsiType"; "file"; "upsert"; "auth"; "disableSSLVerification"]
   : gset string)
  = list_to_set
      (Shape.send_fields.*1
         ++ ([("resource", Shape.KString); ("upsert", Shape.KBoolean)]
               ++ Shape.tls_switch).*1).
Proof. cbn. set_solver. Qed.

Lemma valid_send (access : json) :
  is_valid http_send_schema access = Shape.send access.
Proof.
  destruct access as [| | | | |m]; try done.
  unfold http_send_schema, Shape.send, Shape.send_with, Shape.has_shape.
  rewrite is_valid_object, <-send_names.
  cbn [forallb fmap list_fmap fst snd orb app Shape.send_fields Shape.tls_switch].
  rewrite no_additional.
  fields m.
Qed.

(** [oneOf] with two sub-schemas: one of them holds, not both. *)
Lemma is_valid_one_of_two (s1 s2 : Schema) (instance : json) :
  is_valid (mkSchema None None [] true [] (Some [s1; s2])) instance
  = xorb (is_valid s1 instance) (is_valid s2 instance).
Proof.
  cbn [is_valid forallb orb andb List.filter].
  destruct instance; cbn [andb];
    by destruct (is_valid s1 _), (is_valid s2 _).
Qed.

Lemma container_qualified_names :
  (list_to_set
     ["baseUrl"; "project"; "subject"; "session"; "containerType"; "container";
      "resource"; "file"; "auth"; "disableSSLVerification"]
   : gset string)
  = list_to_set (Shape.container_qualified_fields.*1 ++ Shape.tls_switch.*1).
Proof. cbn. set_solver. Qed.

Lemma container_less_names :
  (list_to_set
     ["baseUrl"; "project"; "subject"; "session"; "resource"; "file"; "auth";
      "disableSSLVerification"]
   : gset string)
  = list_to_set (Shape.container_less_fields.*1 ++ Shape.tls_switch.*1).
Proof. cbn. set_solver. Qed.

Lemma valid_receive (access : json) :
  is_valid http_receive_schema access = Shape.receive access.
Proof.
  unfold http_receive_schema, Shape.receive, Shape.receive_with.
  rewrite is_valid_one_of_two.
  destruct access as [| | | | |m]; try done.
  unfold Shape.has_shape.
  rewrite !is_valid_object, <-container_qualified_names, <-container_less_names.
  f_equal.
  - cbn [forallb fmap list_fmap fst snd orb app Shape.container_qualified_fields
           Shape.tls_switch].
    rewrite no_additional. fields m.
  - cbn [forallb fmap list_fmap fst snd orb app Shape.container_less_fields
           Shape.tls_switch].
    rewrite no_additional. fields m.
Qed.

(** Symbolic execution of a run, one statement at a time. *)

Ltac proj := cbn [trace outcome final fst snd after].

(** [x = access[key]]: continue with the value, or stop at the [KeyError]. *)
Ltac field o :=
  rewrite bind_item; destruct o; proj; [cbv beta zeta | try discriminate].

(** [r = requests.get(...)]: the server answers [r], or is unreachable. *)
Ltac call srv r s :=
  first [rewrite !bind_get | rewrite !bind_put | rewrite !bind_delete];
  destruct (srv _ _) as [[r|] s]; proj.

(** The first event of two equal traces. *)
Lemma trace_head (rq rq' : Request) (r r' : Response) (t t' : list Event) :
  EvHttp rq (Answered r) :: t = EvHttp rq' (Answered r') :: t' ->
  rq = rq' /\ r = r' /\ t = t'.
Proof. by intros [= -> -> ->]. Qed.

(** A listing that reports what the loop looks for: the status check
    passes and the loop answers. *)
Ltac listing key value r Hrep :=
  let l := fresh "l" in
  let Hl := fresh "Hl" in
  let Hok := fresh "Hok" in
  let Hrs := fresh "Hrs" in
  let Hloop := fresh "Hloop" in
  unfold Wire.reports, Wire.reports_none in Hrep;
  destruct (Wire.listing key r) as [l|] eqn:Hl; [|done];
  destruct (listing_read key value r l Hl) as (Hok & Hrs & Hloop);
  rewrite ?bind_bind, bind_raise_for_status, Hok;
  rewrite ?bind_bind, bind_lift, Hrs, ?bind_bind, bind_lift; cbn [py_iter];
  rewrite ?bind_bind, bind_lift, Hloop;
  try apply negb_true_iff in Hrep; rewrite Hrep.

Section Properties.

Context {St : Type}.
Variable srv : St -> Request -> Reply * St.

(** C6. URL construction is a function of the descriptor fields, and the
    base URL enters it only through [rstrip('/')]: a descriptor whose
    [baseUrl] has any number of extra trailing slashes makes [Http.receive]
    and [Http.send] behave exactly as the descriptor without them does,
    in every world, hence with the same URL in every call. *)
Theorem trailing_slashes_are_ignored (a : Access) (b : string) (n : nat)
    (i : Internal) (w : World St) :
  receive srv (with_baseUrl (b +:+ PyStr.slashes n) a) i w
    = receive srv (with_baseUrl b a) i w
  /\ send srv (with_baseUrl (b +:+ PyStr.slashes n) a) i w
    = send srv (with_baseUrl b a) i w.
Proof.
  split.
  - unfold receive, with_baseUrl, bind, item, ret; simpl.
    by rewrite rstrip_slash_append.
  - unfold send, with_baseUrl, bind, item, ret; simpl.
    by rewrite rstrip_slash_append.
Qed.

(** C9. When the initial GET of [Http.receive] is answered with an error
    status, the operation raises that [HTTPError] at once: the GET is the
    only event of the run, so the local path is never opened, and the
    local files are what they were. *)
Theorem receive_error_before_open (a : Access) (i : Internal) (w : World St)
    (rq : Request) (r : Response) (rest : list Event) :
  trace (receive srv a i w) = EvHttp rq (Answered r) :: rest ->
  is_error_status (status_code r) = true ->
  rest = []
  /\ outcome (receive srv a i w) = Raised (HTTPError r)
  /\ files (final (receive srv a i w)) = files w.
Proof.
  unfold receive; cbv zeta.
  field (baseUrl a). field (project a). field (subject a). field (session a).
  field (resource a). field (file a).
  call srv r1 st1; [|discriminate].
  intros H; injection H as <- <- <-; intros E.
  rewrite bind_raise_for_status, E; proj. done.
Qed.

(** C2. When the container listing reports a container whose ID is
    [container] and [upsert] is false or absent, [Http.send] raises the
    conflict exception right after the listing: the listing GET is the only
    event of the run (no mutating call, no further network call, no
    session-invalidation DELETE), and the local files are untouched. *)
Theorem send_conflict_without_upsert (a : Access) (i : Internal) (w : World St)
    (c : string) (rq : Request) (r : Response) (rest : list Event) :
  container a = Some c ->
  upsert a <> Some true ->
  trace (send srv a i w) = EvHttp rq (Answered r) :: rest ->
  Wire.reports "ID" c r = true ->
  rest = []
  /\ meth rq = GET
  /\ outcome (send srv a i w)
     = Raised (PyException ("Container " +:+ c +:+ " already exists and upsert is not set."))
  /\ files (final (send srv a i w)) = files w.
Proof.
  intros Hc Hu. unfold send; cbv zeta. rewrite Hc.
  field (baseUrl a). field (project a). field (subject a). field (session a).
  field (containerType a). rewrite bind_item; cbv beta zeta.
  field (xsiType a). field (file a).
  call srv r1 st1; [|discriminate].
  intros H; injection H as <- <- <-; intros Hrep.
  unfold Wire.reports in Hrep.
  destruct (Wire.listing "ID" r1) as [l|] eqn:Hl; [|done].
  destruct (listing_read "ID" c r1 l Hl) as (Hok & Hrs & Hloop).
  rewrite bind_raise_for_status, Hok.
  rewrite bind_lift, Hrs, bind_lift; cbn [py_iter].
  rewrite bind_lift, Hloop, Hrep.
  rewrite !bind_bind, bind_if.
  replace (truthy_flag (upsert a)) with false
    by (by destruct (upsert a) as [[|]|]).
  cbn [negb]. rewrite bind_raise. proj. done.
Qed.

(** C10. When the container listing of a run has no entry whose ID is
    [container], the value of [upsert] (true, false or absent) does not
    matter: the two runs of [Http.send] have the same outcome, the same
    trace of network calls and local reads, and the same final world. *)
Theorem send_upsert_irrelevant_without_container (a : Access) (u1 u2 : option bool)
    (i : Internal) (w : World St) (c : string) :
  container a = Some c ->
  container_listed c (trace (send srv (with_upsert u1 a) i w)) = false ->
  send srv (with_upsert u1 a) i w = send srv (with_upsert u2 a) i w.
Proof.
  intros Hc. unfold send, with_upsert, _auth_method_obj; cbv zeta.
  cbn [baseUrl project subject session containerType container resource
       xsiType file upsert auth disableSSLVerification].
  rewrite Hc.
  rewrite !bind_item; destruct (baseUrl a); [cbv beta zeta|done].
  rewrite !bind_item; destruct (project a); [cbv beta zeta|done].
  rewrite !bind_item; destruct (subject a); [cbv beta zeta|done].
  rewrite !bind_item; destruct (session a); [cbv beta zeta|done].
  rewrite !bind_item; destruct (containerType a); [cbv beta zeta|done].
  rewrite !bind_item; cbv beta iota zeta.
  destruct (xsiType a); [cbv beta zeta|done].
  rewrite !bind_item; destruct (file a); [cbv beta zeta|done].
  call srv r1 st1; [|done].
  cbn [container_listed]. intros Hl.
  rewrite !bind_raise_for_status.
  destruct (is_error_status (status_code r1)); [done|].
  rewrite !bind_lift. destruct (result_set r1) as [j|] eqn:Hj; [|done].
  rewrite !bind_lift. destruct (py_iter j) as [items|] eqn:Hit; [|done].
  rewrite !bind_lift.
  destruct (exists_loop "ID" c items) as [[|]|] eqn:Hex; [|done..].
  rewrite (loop_found_listed _ _ _ _ _ Hj Hit Hex) in Hl. done.
Qed.

(** The last three statements of [Http.send]: create the container,
    upload the file, invalidate the session. *)
Definition send_tail (base p s e ct c rs x f : string) (ck : CookieJar) (v : bool)
    (i : Internal) : M St unit :=
  r <~ requests_put srv
         (base +:+ "/REST/projects/" +:+ p +:+ "/subjects/" +:+ s
            +:+ "/experiments/" +:+ e +:+ "/" +:+ ct
            +:+ "/" +:+ c +:+ "?xsiType=" +:+ x)
         None (Some ck) v ;;
  raise_for_status r ;;;
  (f0 <~ open_rb (path i) ;;
   finally
     (r <~ requests_put srv
             (base +:+ "/REST/projects/" +:+ p +:+ "/subjects/" +:+ s
                +:+ "/experiments/" +:+ e +:+ "/" +:+ ct
                +:+ "/" +:+ c +:+ "/resources/" +:+ rs
                +:+ "/files/" +:+ f +:+ "?inbody=true")
             (Some f0) (Some ck) v ;;
      raise_for_status r)
     (close (path i))) ;;;
  r <~ requests_delete srv (base +:+ "/data/JSESSION") (Some ck) v ;;
  raise_for_status r.

(** When every step of the tail goes through, these are its events. *)
Lemma send_tail_run base p s e ct c rs x f ck v (i : Internal) (w : World St) :
  forallb succeeded (trace (send_tail base p s e ct c rs x f ck v i w)) = true ->
  exists r4 r5 r6 content,
    files w !! path i = Some content
    /\ outcome (send_tail base p s e ct c rs x f ck v i w) = Ok tt
    /\ trace (send_tail base p s e ct c rs x f ck v i w)
       = [ EvHttp (mkRequest PUT (Wire.create_container base p s e ct c x)
                     None (Some ck) v false None) (Answered r4);
           EvOpen (path i) RB true;
           EvHttp (mkRequest PUT (Wire.upload_file base p s e ct c rs f)
                     None (Some ck) v false (Some content)) (Answered r5);
           EvClose (path i);
           EvHttp (mkRequest DELETE (Wire.jsession base)
                     None (Some ck) v false None) (Answered r6) ].
Proof.
  unfold send_tail.
  call srv r4 st4; [|done].
  rewrite bind_raise_for_status. cbn [forallb succeeded].
  destruct (is_error_status (status_code r4)); [done|]. cbn [negb andb].
  rewrite bind_bind, bind_open_rb. cbn [files].
  destruct (files w !! path i) as [content|]; proj; [|done].
  cbn [forallb succeeded andb].
  rewrite bind_upload. destruct (srv _ _) as [[r5|] st5]; [|done].
  destruct (is_error_status (status_code r5)) eqn:E5; proj;
    cbn [forallb succeeded negb andb]; [by rewrite E5|]. rewrite E5. cbn [negb andb].
  rewrite run_delete_checked. destruct (srv _ _) as [[r6|] st6]; proj; [|done].
  cbn [forallb succeeded].
  destruct (is_error_status (status_code r6)); [done|].
  intros _. by exists r4, r5, r6, content.
Qed.

(** C3. When the container listing is well formed and has no entry whose
    ID is [container], and every later step goes through, [Http.send]
    issues exactly four calls: the listing GET, the PUT that creates the
    container (with its [xsiType] query parameter), the PUT that uploads the
    local file, and the session-invalidation DELETE.  Its calls on the
    remote hierarchy are the two PUTs, in that order, and none of them is a
    DELETE. *)
Theorem send_creates_absent_container (b p s e ct c : string) (res : option string)
    (x f : string) (u : option bool) (au : option AuthDict) (ssl : option bool)
    (i : Internal) (w : World St) (rq : Request) (r : Response) (rest : list Event) :
  let a := send_descriptor b p s e ct c res x f u au ssl in
  let base := PyStr.rstrip_slash b in
  let rs := default "OTHER" res in
  let v := negb (truthy_flag ssl) in
  trace (send srv a i w) = EvHttp rq (Answered r) :: rest ->
  Wire.reports_none "ID" c r = true ->
  forallb succeeded rest = true ->
  outcome (send srv a i w) = Ok tt
  /\ requests_of (trace (send srv a i w))
     = [ mkRequest GET (Wire.list_containers base p s e ct)
           (_auth_method_obj a) None v false None;
         mkRequest PUT (Wire.create_container base p s e ct c x)
           None (Some (cookies r)) v false None;
         mkRequest PUT (Wire.upload_file base p s e ct c rs f)
           None (Some (cookies r)) v false (files w !! path i);
         mkRequest DELETE (Wire.jsession base)
           None (Some (cookies r)) v false None ]
  /\ List.filter (mutating base) (calls (trace (send srv a i w)))
     = [ (PUT, Wire.create_container base p s e ct c x);
         (PUT, Wire.upload_file base p s e ct c rs f) ]
  /\ List.filter (deleting base) (calls (trace (send srv a i w))) = [].
Proof.
  intros a base rs v. unfold send, a, send_descriptor; cbv zeta.
  cbn [baseUrl project subject session containerType container resource
       xsiType file upsert auth disableSSLVerification].
  rewrite !bind_item; cbv beta iota zeta.
  call srv r1 st1; [|discriminate].
  intros H; injection H as <- <- <-; intros Hrep.
  unfold Wire.reports_none in Hrep.
  destruct (Wire.listing "ID" r1) as [l|] eqn:Hl; [|done].
  apply negb_true_iff in Hrep.
  destruct (listing_read "ID" c r1 l Hl) as (Hok & Hrs & Hloop).
  rewrite bind_raise_for_status, Hok.
  rewrite bind_lift, Hrs, bind_lift; cbn [py_iter].
  rewrite bind_lift, Hloop, Hrep.
  rewrite bind_ret. intros Hs.
  destruct (send_tail_run (PyStr.rstrip_slash b) p s e ct c (default "OTHER" res)
              x f (cookies r1) (negb (truthy_flag ssl)) i (mkWorld st1 (files w)) Hs)
    as (r4 & r5 & r6 & content & Hfile & Hout & Htr).
  unfold send_tail in Hout, Htr. rewrite Hout, Htr. cbn [files] in Hfile.
  rewrite Hfile. split; [done|]. split; [done|].
  unfold base. cbn -[String.append String.eqb Wire.jsession].
  unfold Wire.create_container, Wire.upload_file.
  rewrite !rest_is_not_session, String.eqb_refl. done.
Qed.

(** C1. With [upsert] true, when the three listings report the container
    (by ID), the resource (by label) and the file (by Name), and every later
    step goes through, [Http.send] issues, after the three listing GETs, the
    calls: DELETE file, DELETE container, PUT container (with its [xsiType]
    query parameter), PUT file (its body is the local file), in that order,
    followed by the session-invalidation DELETE, and returns normally. *)
Theorem send_replaces_existing (b p s e ct c : string) (res : option string)
    (x f : string) (au : option AuthDict) (ssl : option bool)
    (i : Internal) (w : World St) (rq1 rq2 rq3 : Request) (r1 r2 r3 : Response)
    (rest : list Event) :
  let a := send_descriptor b p s e ct c res x f (Some true) au ssl in
  let base := PyStr.rstrip_slash b in
  let rs := default "OTHER" res in
  let v := negb (truthy_flag ssl) in
  let ck := Some (cookies r1) in
  trace (send srv a i w)
    = EvHttp rq1 (Answered r1) :: EvHttp rq2 (Answered r2)
        :: EvHttp rq3 (Answered r3) :: rest ->
  Wire.reports "ID" c r1 = true ->
  Wire.reports "label" rs r2 = true ->
  Wire.reports "Name" f r3 = true ->
  forallb succeeded rest = true ->
  outcome (send srv a i w) = Ok tt
  /\ requests_of (trace (send srv a i w))
     = [ mkRequest GET (Wire.list_containers base p s e ct)
           (_auth_method_obj a) None v false None;
         mkRequest GET (Wire.list_resources base p s e ct c) None ck v false None;
         mkRequest GET (Wire.list_files base p s e ct c rs) None ck v false None;
         mkRequest DELETE (Wire.container_file base p s e ct c rs f)
           None ck v false None;
         mkRequest DELETE (Wire.container_path base p s e ct c) None ck v false None;
         mkRequest PUT (Wire.create_container base p s e ct c x) None ck v false None;
         mkRequest PUT (Wire.upload_file base p s e ct c rs f)
           None ck v false (files w !! path i);
         mkRequest DELETE (Wire.jsession base) None ck v false None ]
  /\ List.filter (mutating base) (calls (trace (send srv a i w)))
     = [ (DELETE, Wire.container_file base p s e ct c rs f);
         (DELETE, Wire.container_path base p s e ct c);
         (PUT, Wire.create_container base p s e ct c x);
         (PUT, Wire.upload_file base p s e ct c rs f) ].
Proof.
  intros a base rs v ck. subst a base rs v ck.
  unfold send, send_descriptor; cbv zeta.
  cbn [baseUrl project subject session containerType container resource
       xsiType file upsert auth disableSSLVerification].
  rewrite !bind_item; cbv beta iota zeta.
  (* the container listing *)
  call srv r1' st1; [|discriminate].
  intros H; apply trace_head in H as (<- & <- & H); revert H.
  intros H Hrep1; revert H. listing "ID" c r1' Hrep1.
  rewrite !bind_bind. cbn [truthy_flag negb]. rewrite bind_ret.
  (* the resource listing *)
  rewrite ?bind_bind. call srv r2' st2; [|discriminate].
  intros H; apply trace_head in H as (<- & <- & H); revert H.
  intros H Hrep2; revert H. listing "label" (default "OTHER" res) r2' Hrep2.
  (* the file listing *)
  rewrite ?bind_bind. call srv r3' st3; [|discriminate].
  intros H; apply trace_head in H as (<- & <- & <-).
  intros Hrep3. listing "Name" f r3' Hrep3.
  (* delete file, delete container *)
  rewrite ?bind_bind. call srv r4 st4; [|done].
  rewrite ?bind_bind, bind_raise_for_status. cbn [forallb succeeded].
  destruct (is_error_status (status_code r4)); [done|]. cbn [negb andb].
  rewrite ?bind_bind. call srv r5 st5; [|done].
  rewrite ?bind_bind, bind_raise_for_status. cbn [forallb succeeded].
  destruct (is_error_status (status_code r5)); [done|]. cbn [negb andb].
  (* create container, create file, delete session *)
  rewrite ?bind_bind. cbn [files remote]. intros Hs.
  pose proof Hs as Ht. apply send_tail_run in Ht
    as (r6 & r7 & r8 & content & Hfile & Hout & Htr).
  unfold send_tail in Hout, Htr. cbn [files remote] in Hfile, Hout, Htr.
  rewrite Hout, Htr.
  rewrite Hfile. split; [done|]. split; [done|].
  cbn -[String.append String.eqb Wire.jsession].
  unfold Wire.container_file, Wire.container_path, Wire.create_container,
    Wire.upload_file.
  rewrite !rest_is_not_session, String.eqb_refl. done.
Qed.

(** C8. In a run of [Http.send] or of [Http.receive], take any call that
    was answered with an error status.  Every call before it was checked and
    found without error; the run stops there: nothing follows but the closing
    of a file that was open (no further call, hence no retry and no
    compensating call to the server, no further write to the local file), and
    the caller receives the [HTTPError] that carries that very response. *)
Theorem first_error_aborts (a : Access) (i : Internal) (w : World St)
    (run : result unit * World St * list Event)
    (pre post : list Event) (rq : Request) (r : Response) :
  run = send srv a i w \/ run = receive srv a i w ->
  trace run = pre ++ EvHttp rq (Answered r) :: post ->
  is_error_status (status_code r) = true ->
  clean pre = true
  /\ forallb is_close post = true
  /\ requests_of post = []
  /\ outcome run = Raised (HTTPError r).
Proof.
  intros Hrun Htr He.
  assert (aborts run) as Ha.
  { destruct Hrun as [-> | ->]; [apply Aborts_send | apply Aborts_receive]. }
  destruct (aborts_at_error run pre post rq r Ha Htr He) as (Hpre & Hpost & Hout).
  repeat split; try done. by apply closes_no_requests.
Qed.

(** C4, as the code has it.  The first call of [Http.send] and of
    [Http.receive] carries the basic-auth credentials built from
    [auth.username] and [auth.password], and no cookies.  Every later call of
    the operation carries no credentials: it carries the cookies of the
    response to the first call. *)
Theorem credentials_then_cookies (a : Access) (au : AuthDict) (i : Internal)
    (w : World St) (run : result unit * World St * list Event)
    (rq : Request) (rp : Reply) (rest : list Event) :
  run = send srv a i w \/ run = receive srv a i w ->
  auth a = Some au ->
  trace run = EvHttp rq rp :: rest ->
  req_auth rq = Some (mkHTTPBasicAuth (username au) (password au))
  /\ req_cookies rq = None
  /\ match rp with
     | Answered r =>
         Forall (fun c => req_auth c = None /\ req_cookies c = Some (cookies r))
           (requests_of rest)
     | Unreachable => rest = []
     end.
Proof.
  intros Hrun Hau.
  destruct Hrun as [-> | ->].
  - unfold send, _auth_method_obj; rewrite Hau; cbv zeta.
    field (baseUrl a). field (project a). field (subject a). field (session a).
    field (containerType a). field (container a). field (xsiType a).
    field (file a).
    call srv r1 st1; intros [= <- <- <-]; [|done].
    split; [done|]. split; [done|].
    unfold requests_get, requests_put, requests_delete.
    match goal with
    | |- Forall ?Q (requests_of (trace (?m ?w'))) =>
        enough (Every Q m) as HE by apply HE
    end.
    every; done.
  - unfold receive, _auth_method_obj; rewrite Hau; cbv zeta.
    field (baseUrl a). field (project a). field (subject a). field (session a).
    field (resource a). field (file a).
    call srv r1 st1; intros [= <- <- <-]; [|done].
    split; [done|]. split; [done|].
    unfold requests_get, requests_put, requests_delete.
    match goal with
    | |- Forall ?Q (requests_of (trace (?m ?w'))) =>
        enough (Every Q m) as HE by apply HE
    end.
    every; done.
Qed.

(** C5. For a receive descriptor of either shape, the GET of
    [Http.receive] goes to exactly one URL: the container-qualified one when
    [containerType] (and [container]) are present, the container-less one
    otherwise; the two shapes are never the same string. *)
Theorem receive_url_shape (b p s e : string) (cont : option (string * string))
    (r f : string) (au : AuthDict) (ssl : option bool) (i : Internal) (w : World St) :
  let a := receive_descriptor b p s e cont r f au ssl in
  let base := PyStr.rstrip_slash b in
  let shape :=
    match cont with
    | Some (ct, c) => Wire.container_file base p s e ct c r f
    | None => Wire.container_less_file base p s e r f
    end in
  valid_container cont = true ->
  (exists rp rest,
      trace (receive srv a i w)
      = EvHttp (mkRequest GET shape
                  (Some (mkHTTPBasicAuth (username au) (password au)))
                  None (negb (truthy_flag ssl)) true None) rp :: rest)
  /\ (forall ct c, shape = Wire.container_file base p s e ct c r f ->
                  cont <> None)
  /\ (shape = Wire.container_less_file base p s e r f -> cont = None).
Proof.
  intros a base shape Hv. subst a base shape. split; [|split].
  - unfold receive, receive_descriptor, _auth_method_obj; cbv zeta.
    cbn [baseUrl project subject session containerType container resource
         xsiType file upsert auth disableSSLVerification].
    rewrite !bind_item; cbv beta iota zeta.
    assert (truthy_str (fst <$> cont) = match cont with Some _ => true | None => false end)
      as ->.
    { destruct cont as [[ct c]|]; [|done]. simpl in *.
      destruct ct; [done|done]. }
    rewrite bind_get.
    destruct (srv _ _) as [[r1|] st1]; proj; destruct cont as [[ct c]|]; eauto.
  - intros ct c H ->. symmetry in H. by apply shapes_differ in H.
  - destruct cont as [[ct c]|]; [|done]. intros H. by apply shapes_differ in H.
Qed.

(** C7, as the code has it.  [receive_validate] and [send_validate]
    return normally exactly on the descriptions of their shapes, raise
    [ValidationError] on every other one, send no request, touch no file and
    leave the world as it is.  The shapes are the ones of section 4.1
    (receive: exactly one of the container-qualified and the container-less
    shape; send: the single shape, with [resource] and [upsert] optional),
    each with the optional boolean [disableSSLVerification] next to its
    fields. *)
Theorem validators_accept_the_shapes (access : json) (w : World St) :
  receive_validate access w
    = (if Shape.receive access then Ok tt else Raised ValidationError, w, [])
  /\ send_validate access w
    = (if Shape.send access then Ok tt else Raised ValidationError, w, []).
Proof.
  unfold receive_validate, send_validate, lift, jsonschema_validate.
  by rewrite valid_receive, valid_send.
Qed.

End Properties.

(** ** The example of the specification, run *)

(** C1 at the example of section 8: the server reports SCAN1 with resource
    DICOM holding a.dcm. *)
Lemma send_replaces_existing_example :
  let run := send Example.scripted (Example.upload (Some true)) Example.internal
               (Example.world Example.replace_script) in
  outcome run = Ok tt
  /\ List.filter (mutating "https://xnat.example.org") (calls (trace run))
     = [ (DELETE, "https://xnat.example.org/REST/projects/P1/subjects/S1/experiments/E1/scans/SCAN1/resources/DICOM/files/a.dcm");
         (DELETE, "https://xnat.example.org/REST/projects/P1/subjects/S1/experiments/E1/scans/SCAN1");
         (PUT, "https://xnat.example.org/REST/projects/P1/subjects/S1/experiments/E1/scans/SCAN1?xsiType=xnat:mrScanData");
         (PUT, "https://xnat.example.org/REST/projects/P1/subjects/S1/experiments/E1/scans/SCAN1/resources/DICOM/files/a.dcm?inbody=true") ].
Proof.
  edestruct (send_replaces_existing Example.scripted
               "https://xnat.example.org/" "P1" "S1" "E1" "scans" "SCAN1"
               (Some "DICOM") "xnat:mrScanData" "a.dcm" (Some Example.credentials)
               None Example.internal (Example.world Example.replace_script))
    as (Hout & _ & Hcalls); [reflexivity .. |].
  split; [exact Hout | exact Hcalls].
Defined.


(** C2 at the example: SCAN1 exists and the descriptor has no [upsert]. *)
Lemma send_conflict_without_upsert_example :
  let w := Example.world Example.replace_script in
  let run := send Example.scripted (Example.upload None) Example.internal w in
  outcome run
    = Raised (PyException "Container SCAN1 already exists and upsert is not set.")
  /\ length (trace run) = 1%nat
  /\ files (final run) = files w.
Proof.
  edestruct (send_conflict_without_upsert Example.scripted (Example.upload None)
               Example.internal (Example.world Example.replace_script) "SCAN1")
    as (Hrest & _ & Hout & Hfiles);
    [reflexivity | discriminate | reflexivity | reflexivity |].
  split; [exact Hout|]. split; [|exact Hfiles].
  exact (f_equal (fun rest => S (length rest)) Hrest).
Defined.

(** C3 at the example, when the server lists SCAN2 only. *)
Lemma send_creates_absent_container_example :
  let run := send Example.scripted (Example.upload None) Example.internal
               (Example.world Example.create_script) in
  outcome run = Ok tt
  /\ List.filter (mutating "https://xnat.example.org") (calls (trace run))
     = [ (PUT, "https://xnat.example.org/REST/projects/P1/subjects/S1/experiments/E1/scans/SCAN1?xsiType=xnat:mrScanData");
         (PUT, "https://xnat.example.org/REST/projects/P1/subjects/S1/experiments/E1/scans/SCAN1/resources/DICOM/files/a.dcm?inbody=true") ]
  /\ List.filter (deleting "https://xnat.example.org") (calls (trace run)) = [].
Proof.
  edestruct (send_creates_absent_container Example.scripted
               "https://xnat.example.org/" "P1" "S1" "E1" "scans" "SCAN1"
               (Some "DICOM") "xnat:mrScanData" "a.dcm" None
               (Some Example.credentials) None Example.internal
               (Example.world Example.create_script))
    as (Hout & _ & Hcalls & Hdel); [reflexivity .. |].
  split; [exact Hout|]. split; [exact Hcalls | exact Hdel].
Defined.

(** C4 at the example: the calls after the first carry the session cookie
    and no credentials. *)
Lemma credentials_then_cookies_example :
  Forall (fun c => req_auth c = None /\ req_cookies c = Some Example.jar)
    (tail (requests_of
             (trace (send Example.scripted (Example.upload (Some true))
                       Example.internal (Example.world Example.replace_script))))).
Proof.
  edestruct (credentials_then_cookies Example.scripted
               (Example.upload (Some true)) Example.credentials Example.internal
               (Example.world Example.replace_script))
    as (_ & _ & Hrest); [left; reflexivity | reflexivity | reflexivity |].
  exact Hrest.
Defined.

(** C4 as it is stated fails at the example: the calls that
    follow the first GET of [Http.receive] carry no credentials. *)
Lemma later_calls_carry_no_credentials :
  ~ Forall (fun c => req_auth c = Some (mkHTTPBasicAuth "alice" "secret"))
      (requests_of
         (trace (receive Example.scripted Example.download Example.internal
                   (Example.world [Example.ok; Example.ok])))).
Proof.
  intros H. vm_compute in H.
  inversion H as [|rq1 rest1 _ Hrest]. inversion Hrest as [|rq2 rest2 Hrq2 _].
  discriminate Hrq2.
Qed.

(** C5 at the example: the container-qualified URL. *)
Lemma receive_url_shape_example :
  exists rp rest,
    trace (receive Example.scripted Example.download Example.internal
             (Example.world [Example.ok; Example.ok]))
    = EvHttp (mkRequest GET
                "https://xnat.example.org/REST/projects/P1/subjects/S1/experiments/E1/scans/SCAN1/resources/DICOM/files/a.dcm"
                (Some (mkHTTPBasicAuth "alice" "secret")) None true true None) rp
        :: rest.
Proof.
  exact (proj1 (receive_url_shape Example.scripted "https://xnat.example.org/"
                  "P1" "S1" "E1" (Some ("scans", "SCAN1")) "DICOM" "a.dcm"
                  Example.credentials None Example.internal
                  (Example.world [Example.ok; Example.ok]) eq_refl)).
Defined.

(** C7 as it is stated fails at a send description that carries
    [disableSSLVerification]: [send_validate] accepts it, and it is not of
    the shape that section 4.1 spells out. *)
Lemma validators_accept_the_tls_switch :
  outcome (send_validate Example.upload_json (Example.world [])) = Ok tt
  /\ Shape.send_4_1 Example.upload_json = false.
Proof. split; vm_compute; reflexivity. Qed.

(** C8 at the example: the upload is refused after the container was
    created. *)
Lemma first_error_aborts_example :
  let run := send Example.scripted (Example.upload None) Example.internal
               (Example.world Example.refused_script) in
  outcome run = Raised (HTTPError Example.forbidden)
  /\ skipn 4 (trace run) = [EvClose "/data/a.dcm"]
  /\ requests_of (skipn 4 (trace run)) = [].
Proof.
  pose (run := send Example.scripted (Example.upload None) Example.internal
                 (Example.world Example.refused_script)).
  edestruct (first_error_aborts Example.scripted (Example.upload None)
               Example.internal (Example.world Example.refused_script) run
               (firstn 3 (trace run)) (skipn 4 (trace run)))
    as (_ & _ & Hpost & Hout); [left; reflexivity | reflexivity | reflexivity |].
  split; [exact Hout|]. split; [reflexivity | exact Hpost].
Defined.

(** C9 at the example: the file that is there keeps its content. *)
Lemma receive_error_before_open_example :
  let w := Example.world [Answered Example.not_found] in
  let run := receive Example.scripted Example.download Example.internal w in
  outcome run = Raised (HTTPError Example.not_found)
  /\ files (final run) = files w.
Proof.
  edestruct (receive_error_before_open Example.scripted Example.download
               Example.internal (Example.world [Answered Example.not_found]))
    as (_ & Hout & Hfiles); [reflexivity | reflexivity |].
  split; [exact Hout | exact Hfiles].
Defined.

(** C10 at the example, when the server lists SCAN2 only. *)
Lemma send_upsert_irrelevant_example :
  send Example.scripted (Example.upload (Some true)) Example.internal
    (Example.world Example.create_script)
  = send Example.scripted (Example.upload None) Example.internal
      (Example.world Example.create_script).
Proof.
  exact (send_upsert_irrelevant_without_container Example.scripted
           (Example.upload None) (Some true) None Example.internal
           (Example.world Example.create_script) "SCAN1" eq_refl eq_refl).
Defined.

(** * Further properties of the connector *)

(** ** What holds of every call *)

Lemma calls_requests (tr : list Event) :
  calls tr = (fun rq => (meth rq, url rq)) <$> requests_of tr.
Proof.
  induction tr as [|e tr IH]; [done|].
  destruct e; simpl; by rewrite ?IH.
Qed.

Lemma filter_calls_nil (f : Method * string -> bool) (tr : list Event) :
  Forall (fun rq => f (meth rq, url rq) = false) (requests_of tr) ->
  List.filter f (calls tr) = [].
Proof.
  rewrite calls_requests. induction 1 as [|rq l H _ IH]; simpl; [done|].
  by rewrite H.
Qed.

Section EveryCall.

Context {St : Type}.
Variable srv : St -> Request -> Reply * St.
Variable P : Request -> Prop.

Lemma Every_item {A} (key : string) (o : option A) :
  Every (St:=St) P (item key o).
Proof. apply Every_silent. by destruct o. Qed.

(** [x = access[key]] and what follows: the rest runs only with the value
    of the key. *)
Lemma Every_bind_item {A B} (key : string) (o : option A) (k : A -> M St B) :
  (forall v, o = Some v -> Every P (k v)) ->
  Every P (bind (item key o) k).
Proof.
  intros H w. rewrite bind_item. destruct o as [v|].
  - by apply H.
  - constructor.
Qed.

(** Nothing runs after a [raise]. *)
Lemma Every_bind_raise {A B} (e : exn) (k : A -> M St B) :
  Every P (bind (raise e) k).
Proof. intros w. rewrite bind_raise. constructor. Qed.

End EveryCall.

Ltac every_call :=
  unfold requests_get, requests_put, requests_delete; cbv zeta;
  repeat first
    [ apply Every_bind_item; intros ? ?
    | apply Every_bind_raise
    | apply Every_item
    | progress every ].

Section Calls.

Context {St : Type}.
Variable srv : St -> Request -> Reply * St.

(** X1. Every call of [Http.send] and of [Http.receive] is made with the
    same [verify] argument: [False] when [disableSSLVerification] is true,
    [True] when it is false or absent. *)
Theorem verify_flag_on_every_call (a : Access) (i : Internal) (w : World St) :
  let v := negb (truthy_flag (disableSSLVerification a)) in
  Forall (fun rq => verify rq = v) (requests_of (trace (send srv a i w)))
  /\ Forall (fun rq => verify rq = v) (requests_of (trace (receive srv a i w))).
Proof.
  intros v. split.
  - enough (Every (fun rq => verify rq = v) (send srv a i)) as H by apply H.
    unfold send. every_call; done.
  - enough (Every (fun rq => verify rq = v) (receive srv a i)) as H by apply H.
    unfold receive. every_call; done.
Qed.



(** X4. Unless [upsert] is true, [Http.send] deletes nothing on the
    server, whatever the server answers: it issues no [DELETE] but the one
    that ends the session. *)
Theorem send_without_upsert_never_deletes (a : Access) (i : Internal) (w : World St) :
  let base := PyStr.rstrip_slash (default "" (baseUrl a)) in
  upsert a <> Some true ->
  List.filter (deleting base) (calls (trace (send srv a i w))) = [].
Proof.
  intros base Hu. subst base. apply filter_calls_nil.
  enough (Every (fun rq => deleting (PyStr.rstrip_slash (default "" (baseUrl a)))
                             (meth rq, url rq) = false)
            (send srv a i)) as H by apply H.
  assert (negb (truthy_flag (upsert a)) = true) as Hn.
  { destruct (upsert a) as [[]|]; done. }
  unfold send. cbv zeta. rewrite Hn. apply Every_bind_item. intros b ->.
  every_call; try done.
  unfold deleting, Wire.jsession. cbn. by rewrite String.eqb_refl.
Qed.

End Calls.

(** ** The local files *)

(** The computation leaves the files at the paths of [keep] as they are. *)
Definition Keeps {St A} (keep : string -> Prop) (m : M St A) : Prop :=
  forall w q, keep q -> files (final (m w)) !! q = files w !! q.

Section LocalFiles.

Context {St : Type}.
Variable srv : St -> Request -> Reply * St.
Variable keep : string -> Prop.

Lemma Keeps_still {A} (m : M St A) :
  (forall w, files (final (m w)) = files w) -> Keeps keep m.
Proof. intros H w q _. by rewrite H. Qed.

Lemma Keeps_ret {A} (a : A) : Keeps (St:=St) keep (ret a).
Proof. by apply Keeps_still. Qed.

Lemma Keeps_raise {A} (e : exn) : Keeps (St:=St) (A:=A) keep (raise e).
Proof. by apply Keeps_still. Qed.

Lemma Keeps_lift {A} (r : result A) : Keeps (St:=St) keep (lift r).
Proof. by apply Keeps_still. Qed.

Lemma Keeps_item {A} (key : string) (o : option A) : Keeps (St:=St) keep (item key o).
Proof. apply Keeps_still. by destruct o. Qed.

Lemma Keeps_raise_for_status (r : Response) : Keeps (St:=St) keep (raise_for_status r).
Proof.
  apply Keeps_still. intros w. unfold raise_for_status.
  by destruct (is_error_status (status_code r)).
Qed.

Lemma Keeps_request (rq : Request) : Keeps keep (request srv rq).
Proof.
  apply Keeps_still. intros w. unfold request.
  by destruct (srv (remote w) rq) as [[r|] st].
Qed.

Lemma Keeps_open_rb (p : string) : Keeps (St:=St) keep (open_rb p).
Proof.
  apply Keeps_still. intros w. unfold open_rb.
  by destruct (files w !! p).
Qed.

Lemma Keeps_close (p : string) : Keeps (St:=St) keep (close p).
Proof. by apply Keeps_still. Qed.

Lemma Keeps_open_wb (p : string) :
  (forall q, keep q -> q <> p) -> Keeps (St:=St) keep (open_wb p).
Proof.
  intros H w q Hq. unfold open_wb; cbn.
  apply lookup_insert_ne. intros ->. by apply (H q).
Qed.

Lemma Keeps_write (p : string) (chunk : bytes) :
  (forall q, keep q -> q <> p) -> Keeps (St:=St) keep (write p chunk).
Proof.
  intros H w q Hq. unfold write; cbn.
  apply lookup_insert_ne. intros ->. by apply (H q).
Qed.

Lemma Keeps_if {A} (c : bool) (m1 m2 : M St A) :
  Keeps keep m1 -> Keeps keep m2 -> Keeps keep (if c then m1 else m2).
Proof. by destruct c. Qed.

Lemma Keeps_bind {A B} (m : M St A) (k : A -> M St B) :
  Keeps keep m -> (forall a, Keeps keep (k a)) -> Keeps keep (bind m k).
Proof.
  intros Hm Hk w q Hq. specialize (Hm w q Hq). unfold bind.
  destruct (m w) as [[[a|e] w1] t1]; [|done].
  specialize (Hk a w1 q Hq). destruct (k a w1) as [[r2 w2] t2].
  cbn [final fst snd] in *. congruence.
Qed.

Lemma Keeps_finally {A} (body : M St A) (cleanup : M St unit) :
  Keeps keep body -> Keeps keep cleanup -> Keeps keep (finally body cleanup).
Proof.
  intros Hb Hc w q Hq. specialize (Hb w q Hq). unfold finally.
  destruct (body w) as [[r w1] t1].
  specialize (Hc w1 q Hq). destruct (cleanup w1) as [[r2 w2] t2].
  cbn [final fst snd] in *. congruence.
Qed.

Lemma Keeps_write_chunks (p : string) (chunks : list bytes) (broken : bool) :
  (forall q, keep q -> q <> p) ->
  Keeps (St:=St) keep (write_chunks p chunks broken).
Proof.
  intros H. induction chunks as [|chunk chunks IH]; simpl.
  - destruct broken; [apply Keeps_raise | apply Keeps_ret].
  - apply Keeps_bind; [|done].
    destruct chunk; [apply Keeps_ret | by apply Keeps_write].
Qed.

End LocalFiles.

Ltac keeps :=
  unfold requests_get, requests_put, requests_delete; cbv zeta;
  repeat first
    [ apply Keeps_ret | apply Keeps_raise | apply Keeps_lift | apply Keeps_item
    | apply Keeps_raise_for_status | apply Keeps_request
    | apply Keeps_open_rb | apply Keeps_close
    | apply Keeps_open_wb | apply Keeps_write_chunks
    | apply Keeps_finally
    | apply Keeps_if
    | apply Keeps_bind; [|intros ?] ].

(** ** File handles *)

(** [f.close()]: the handle on [p] is given back. *)
Fixpoint release (p : string) (held : list string) : list string :=
  match held with
  | [] => []
  | q :: held => if String.eqb p q then held else q :: release p held
  end.

(** The paths that are open after the events of a trace, when [held] were
    open before. *)
Fixpoint held_after (held : list string) (tr : list Event) : list string :=
  match tr with
  | [] => held
  | EvOpen p _ true :: tr => held_after (p :: held) tr
  | EvClose p :: tr => held_after (release p held) tr
  | _ :: tr => held_after held tr
  end.

(** The computation gives back every handle it takes. *)
Definition Scoped {St A} (m : M St A) : Prop :=
  forall w held, held_after held (trace (m w)) = held.

Lemma held_after_app (held : list string) (t1 t2 : list Event) :
  held_after held (t1 ++ t2) = held_after (held_after held t1) t2.
Proof.
  revert held. induction t1 as [|e t1 IH]; intros held; [done|].
  destruct e as [| p mode [] | |]; simpl; by rewrite ?IH.
Qed.

Section Handles.

Context {St : Type}.
Variable srv : St -> Request -> Reply * St.

Lemma Scoped_ret {A} (a : A) : Scoped (St:=St) (ret a).
Proof. done. Qed.

Lemma Scoped_raise {A} (e : exn) : Scoped (St:=St) (A:=A) (raise e).
Proof. done. Qed.

Lemma Scoped_lift {A} (r : result A) : Scoped (St:=St) (lift r).
Proof. done. Qed.

Lemma Scoped_item {A} (key : string) (o : option A) : Scoped (St:=St) (item key o).
Proof. by destruct o. Qed.

Lemma Scoped_raise_for_status (r : Response) : Scoped (St:=St) (raise_for_status r).
Proof.
  intros w held. unfold raise_for_status.
  by destruct (is_error_status (status_code r)).
Qed.

Lemma Scoped_request (rq : Request) : Scoped (request srv rq).
Proof.
  intros w held. unfold request.
  by destruct (srv (remote w) rq) as [[r|] st].
Qed.

Lemma Scoped_write (p : string) (chunk : bytes) : Scoped (St:=St) (write p chunk).
Proof. done. Qed.

Lemma Scoped_if {A} (c : bool) (m1 m2 : M St A) :
  Scoped m1 -> Scoped m2 -> Scoped (if c then m1 else m2).
Proof. by destruct c. Qed.

Lemma Scoped_bind {A B} (m : M St A) (k : A -> M St B) :
  Scoped m -> (forall a, Scoped (k a)) -> Scoped (bind m k).
Proof.
  intros Hm Hk w held. specialize (Hm w held). unfold bind.
  destruct (m w) as [[[a|e] w1] t1]; [|done].
  specialize (Hk a w1 held). destruct (k a w1) as [[r2 w2] t2].
  cbn [trace fst snd] in *. by rewrite held_after_app, Hm.
Qed.

Lemma Scoped_write_chunks (p : string) (chunks : list bytes) (broken : bool) :
  Scoped (St:=St) (write_chunks p chunks broken).
Proof.
  induction chunks as [|chunk chunks IH]; simpl.
  - destruct broken; [apply Scoped_raise | apply Scoped_ret].
  - apply Scoped_bind; [|done].
    destruct chunk; [apply Scoped_ret | apply Scoped_write].
Qed.

(** [with open(p, 'rb') as f: body]: the handle is given back however the
    body ends; when the file cannot be opened there is no handle. *)
Lemma Scoped_with_rb {A} (p : string) (body : bytes -> M St A) :
  (forall f, Scoped (body f)) ->
  Scoped (f <~ open_rb p ;; finally (body f) (close p)).
Proof.
  intros Hb w held. rewrite bind_open_rb.
  destruct (files w !! p) as [content|]; [|done].
  rewrite finally_close. cbn [trace fst snd after held_after].
  rewrite held_after_app, Hb. simpl. by rewrite String.eqb_refl.
Qed.

(** [with open(p, 'wb') as f: body] *)
Lemma Scoped_with_wb {A} (p : string) (body : M St A) :
  Scoped body ->
  Scoped (open_wb p ;;; finally body (close p)).
Proof.
  intros Hb w held. rewrite bind_open_wb, finally_close.
  cbn [trace fst snd after held_after].
  rewrite held_after_app, Hb. simpl. by rewrite String.eqb_refl.
Qed.

End Handles.

Ltac scoped :=
  unfold requests_get, requests_put, requests_delete; cbv zeta;
  repeat first
    [ apply Scoped_ret | apply Scoped_raise | apply Scoped_lift | apply Scoped_item
    | apply Scoped_raise_for_status | apply Scoped_request
    | apply Scoped_write_chunks
    | apply Scoped_with_rb; intros ?
    | apply Scoped_with_wb
    | apply Scoped_if
    | apply Scoped_bind; [|intros ?] ].

Section Local.

Context {St : Type}.
Variable srv : St -> Request -> Reply * St.

(** X5. [Http.send] only reads the local files: whatever happens, they are
    after the run what they were before. *)
Theorem send_keeps_local_files (a : Access) (i : Internal) (w : World St) :
  files (final (send srv a i w)) = files w.
Proof.
  apply map_eq. intros q.
  enough (Keeps (fun _ => True) (send srv a i)) as H by by apply H.
  unfold send. keeps.
Qed.

(** X6. [Http.receive] writes to the path of [internal] only: every other
    local file is after the run what it was before. *)
Theorem receive_writes_its_path_only (a : Access) (i : Internal) (w : World St)
    (q : string) :
  q <> path i ->
  files (final (receive srv a i w)) !! q = files w !! q.
Proof.
  intros Hq.
  enough (Keeps (fun q => q <> path i) (receive srv a i)) as H by by apply H.
  unfold receive. keeps; done.
Qed.

(** X7. However a run of [Http.send] or of [Http.receive] ends (normally,
    on an error status, an unreachable server, a malformed listing or a
    broken stream), the local file it opened has been closed. *)
Theorem no_handle_left_open (a : Access) (i : Internal) (w : World St) :
  held_after [] (trace (send srv a i w)) = []
  /\ held_after [] (trace (receive srv a i w)) = [].
Proof.
  split.
  - enough (Scoped (send srv a i)) as H by apply H.
    unfold send. scoped.
  - enough (Scoped (receive srv a i)) as H by apply H.
    unfold receive. scoped.
Qed.

End Local.

(** ** Downloads *)




Section Downloads.

Context {St : Type}.
Variable srv : St -> Request -> Reply * St.





End Downloads.

(** ** Uploads *)

Section Uploads.

Context {St : Type}.
Variable srv : St -> Request -> Reply * St.

(** X11. With [upsert] true, when the container is listed and the listing
    of its resources has no entry with the label of [resource], [Http.send]
    does not list the files and deletes no file: it deletes the container,
    creates it again, uploads the file and ends the session. *)
Theorem send_replaces_container_without_resource (b p s e ct c : string)
    (res : option string) (x f : string) (au : option AuthDict) (ssl : option bool)
    (i : Internal) (w : World St) (rq1 rq2 : Request) (r1 r2 : Response)
    (rest : list Event) :
  let a := send_descriptor b p s e ct c res x f (Some true) au ssl in
  let base := PyStr.rstrip_slash b in
  let rs := default "OTHER" res in
  let v := negb (truthy_flag ssl) in
  let ck := Some (cookies r1) in
  trace (send srv a i w)
    = EvHttp rq1 (Answered r1) :: EvHttp rq2 (Answered r2) :: rest ->
  Wire.reports "ID" c r1 = true ->
  Wire.reports_none "label" rs r2 = true ->
  forallb succeeded rest = true ->
  outcome (send srv a i w) = Ok tt
  /\ requests_of (trace (send srv a i w))
     = [ mkRequest GET (Wire.list_containers base p s e ct)
           (_auth_method_obj a) None v false None;
         mkRequest GET (Wire.list_resources base p s e ct c) None ck v false None;
         mkRequest DELETE (Wire.container_path base p s e ct c) None ck v false None;
         mkRequest PUT (Wire.create_container base p s e ct c x) None ck v false None;
         mkRequest PUT (Wire.upload_file base p s e ct c rs f)
           None ck v false (files w !! path i);
         mkRequest DELETE (Wire.jsession base) None ck v false None ].
Proof.
  intros a base rs v ck. subst a base rs v ck.
  unfold send, send_descriptor; cbv zeta.
  cbn [baseUrl project subject session containerType container resource
       xsiType file upsert auth disableSSLVerification].
  rewrite !bind_item; cbv beta iota zeta.
  call srv r1' st1; [|discriminate].
  intros H; apply trace_head in H as (<- & <- & H); revert H.
  intros H Hrep1; revert H. listing "ID" c r1' Hrep1.
  rewrite !bind_bind. cbn [truthy_flag negb]. rewrite bind_ret.
  rewrite ?bind_bind. call srv r2' st2; [|discriminate].
  intros H; apply trace_head in H as (<- & <- & <-).
  intros Hrep2. listing "label" (default "OTHER" res) r2' Hrep2.
  cbv beta iota. rewrite ?bind_bind, bind_ret.
  rewrite ?bind_bind. call srv r5 st5; [|done].
  rewrite ?bind_bind, bind_raise_for_status. cbn [forallb succeeded].
  destruct (is_error_status (status_code r5)); [done|]. cbn [negb andb].
  rewrite ?bind_bind. cbn [files remote]. intros Hs.
  pose proof Hs as Ht. apply send_tail_run in Ht
    as (r6 & r7 & r8 & content & Hfile & Hout & Htr).
  unfold send_tail in Hout, Htr. cbn [files remote] in Hfile, Hout, Htr.
  rewrite Hout, Htr. by rewrite Hfile.
Qed.

(** X12. With [upsert] true, when the container and the resource are
    listed and the listing of the files has no entry with the name of [file],
    [Http.send] deletes no file: it deletes the container, creates it again,
    uploads the file and ends the session. *)
Theorem send_replaces_container_without_file (b p s e ct c : string)
    (res : option string) (x f : string) (au : option AuthDict) (ssl : option bool)
    (i : Internal) (w : World St) (rq1 rq2 rq3 : Request) (r1 r2 r3 : Response)
    (rest : list Event) :
  let a := send_descriptor b p s e ct c res x f (Some true) au ssl in
  let base := PyStr.rstrip_slash b in
  let rs := default "OTHER" res in
  let v := negb (truthy_flag ssl) in
  let ck := Some (cookies r1) in
  trace (send srv a i w)
    = EvHttp rq1 (Answered r1) :: EvHttp rq2 (Answered r2)
        :: EvHttp rq3 (Answered r3) :: rest ->
  Wire.reports "ID" c r1 = true ->
  Wire.reports "label" rs r2 = true ->
  Wire.reports_none "Name" f r3 = true ->
  forallb succeeded rest = true ->
  outcome (send srv a i w) = Ok tt
  /\ requests_of (trace (send srv a i w))
     = [ mkRequest GET (Wire.list_containers base p s e ct)
           (_auth_method_obj a) None v false None;
         mkRequest GET (Wire.list_resources base p s e ct c) None ck v false None;
         mkRequest GET (Wire.list_files base p s e ct c rs) None ck v false None;
         mkRequest DELETE (Wire.container_path base p s e ct c) None ck v false None;
         mkRequest PUT (Wire.create_container base p s e ct c x) None ck v false None;
         mkRequest PUT (Wire.upload_file base p s e ct c rs f)
           None ck v false (files w !! path i);
         mkRequest DELETE (Wire.jsession base) None ck v false None ].
Proof.
  intros a base rs v ck. subst a base rs v ck.
  unfold send, send_descriptor; cbv zeta.
  cbn [baseUrl project subject session containerType container resource
       xsiType file upsert auth disableSSLVerification].
  rewrite !bind_item; cbv beta iota zeta.
  call srv r1' st1; [|discriminate].
  intros H; apply trace_head in H as (<- & <- & H); revert H.
  intros H Hrep1; revert H. listing "ID" c r1' Hrep1.
  rewrite !bind_bind. cbn [truthy_flag negb]. rewrite bind_ret.
  rewrite ?bind_bind. call srv r2' st2; [|discriminate].
  intros H; apply trace_head in H as (<- & <- & H); revert H.
  intros H Hrep2; revert H. listing "label" (default "OTHER" res) r2' Hrep2.
  rewrite ?bind_bind. call srv r3' st3; [|discriminate].
  intros H; apply trace_head in H as (<- & <- & <-).
  intros Hrep3. listing "Name" f r3' Hrep3.
  cbv beta iota. rewrite ?bind_bind, bind_ret.
  rewrite ?bind_bind. call srv r5 st5; [|done].
  rewrite ?bind_bind, bind_raise_for_status. cbn [forallb succeeded].
  destruct (is_error_status (status_code r5)); [done|]. cbn [negb andb].
  rewrite ?bind_bind. cbn [files remote]. intros Hs.
  pose proof Hs as Ht. apply send_tail_run in Ht
    as (r6 & r7 & r8 & content & Hfile & Hout & Htr).
  unfold send_tail in Hout, Htr. cbn [files remote] in Hfile, Hout, Htr.
  rewrite Hout, Htr. by rewrite Hfile.
Qed.

End Uploads.

(** ** Incomplete descriptors, unreadable listings, missing files *)

(** The first of the keys that is not there. *)
Fixpoint first_missing (present : list (string * bool)) : option string :=
  match present with
  | [] => None
  | (key, true) :: present => first_missing present
  | (key, false) :: _ => Some key
  end.

Definition there {A} (o : option A) : bool :=
  match o with
  | Some _ => true
  | None => false
  end.



(** Reading a listing and looking for [value] in it:
    [r.json()['ResultSet']['Result']], then the loop over the entries. *)
Definition read_listing (key value : string) (r : Response) : result bool :=
  match result_set r with
  | Raised x => Raised x
  | Ok j =>
      match py_iter j with
      | Raised x => Raised x
      | Ok items => exists_loop key value items
      end
  end.

(** [x = access[key]] against the list of the keys. *)
Ltac key o :=
  rewrite bind_item; destruct o; cbn [first_missing there]; [cbv beta zeta | done].

Section Failures.

Context {St : Type}.
Variable srv : St -> Request -> Reply * St.



(** X15. When the listing of the containers cannot be read (the body is
    not JSON, has no [ResultSet] or [Result], is not a list of dicts, or an
    entry before the first match has no [ID]), [Http.send] raises the
    exception of the read right after the listing call: nothing is deleted,
    created or uploaded, and the local files are untouched. *)
Theorem send_unreadable_listing (a : Access) (i : Internal) (w : World St)
    (c : string) (rq : Request) (r : Response) (rest : list Event) (x : exn) :
  container a = Some c ->
  trace (send srv a i w) = EvHttp rq (Answered r) :: rest ->
  is_error_status (status_code r) = false ->
  read_listing "ID" c r = Raised x ->
  rest = []
  /\ outcome (send srv a i w) = Raised x
  /\ files (final (send srv a i w)) = files w.
Proof.
  unfold send, read_listing; cbv zeta. intros Hc.
  field (baseUrl a). field (project a). field (subject a). field (session a).
  field (containerType a). rewrite Hc, bind_item; cbv beta iota.
  field (xsiType a). field (file a).
  call srv r1 st1; [|discriminate].
  intros [= <- <- <-] He. rewrite bind_raise_for_status, He, bind_lift.
  destruct (result_set r1) as [j|x1]; [|by intros [= ->]].
  rewrite bind_lift. destruct (py_iter j) as [items|x1]; [|by intros [= ->]].
  rewrite bind_lift. intros ->. done.
Qed.

(** X16. [Http.send] looks at the local file only after it created the
    container: when the container is not listed, the PUT that creates it
    goes through and the local file does not exist, the run ends with
    [FileNotFoundError]; the container has been created, nothing is uploaded
    and the session is not ended. *)
Theorem send_missing_local_file (b p s e ct c : string) (res : option string)
    (x f : string) (u : option bool) (au : option AuthDict) (ssl : option bool)
    (i : Internal) (w : World St) (rq1 rq2 : Request) (r1 r2 : Response)
    (rest : list Event) :
  let a := send_descriptor b p s e ct c res x f u au ssl in
  let base := PyStr.rstrip_slash b in
  let v := negb (truthy_flag ssl) in
  trace (send srv a i w)
    = EvHttp rq1 (Answered r1) :: EvHttp rq2 (Answered r2) :: rest ->
  Wire.reports_none "ID" c r1 = true ->
  is_error_status (status_code r2) = false ->
  files w !! path i = None ->
  rq2 = mkRequest PUT (Wire.create_container base p s e ct c x)
          None (Some (cookies r1)) v false None
  /\ rest = [EvOpen (path i) RB false]
  /\ outcome (send srv a i w) = Raised (FileNotFoundError (path i)).
Proof.
  intros a base v. subst a base v.
  unfold send, send_descriptor; cbv zeta.
  cbn [baseUrl project subject session containerType container resource
       xsiType file upsert auth disableSSLVerification].
  rewrite !bind_item; cbv beta iota zeta.
  call srv r1' st1; [|discriminate].
  intros H; apply trace_head in H as (<- & <- & H); revert H.
  intros H Hrep1; revert H. listing "ID" c r1' Hrep1.
  cbv beta iota. rewrite ?bind_bind, bind_ret.
  call srv r2' st2; [|discriminate]. cbn [files remote].
  intros [= <- <- <-] He Hf.
  rewrite bind_raise_for_status, He, bind_bind, bind_open_rb.
  cbn [files]. rewrite Hf. done.
Qed.

End Failures.

(** ** The existence loop *)

(** X17. The existence loop stops at the first entry whose identifier is
    the value looked for: the entries after it are not read, and need not be
    well formed. *)
Theorem exists_loop_stops_at_first_match (key value : string)
    (before after : list json) (e : json) :
  forallb (Wire.has_field key) before = true ->
  existsb (Wire.field_is key value) before = false ->
  Wire.field_is key value e = true ->
  exists_loop key value (before ++ e :: after) = Ok true.
Proof.
  intros Hwf Hno He. induction before as [|b before IH]; simpl in *.
  - destruct e as [| | | | |m]; try done. simpl in *.
    destruct (m !! key) as [[| | |t| |]|]; try done. simpl. by rewrite He.
  - apply andb_prop in Hwf as [Hb Hwf]. apply orb_false_elim in Hno as [Hnb Hno].
    destruct b as [| | | | |m]; try done. simpl in *.
    destruct (m !! key) as [v|]; [|done].
    destruct v as [| | |t| |]; simpl; auto.
    rewrite Hnb. auto.
Qed.

(** X18. An entry without the identifier, before any match, makes the
    loop raise [KeyError] for it (a listing entry is indexed, not asked
    whether it has the key). *)
Theorem exists_loop_missing_identifier (key value : string)
    (before after : list json) (m : gmap string json) :
  forallb (Wire.has_field key) before = true ->
  existsb (Wire.field_is key value) before = false ->
  m !! key = None ->
  exists_loop key value (before ++ JObj m :: after) = Raised (KeyError key).
Proof.
  intros Hwf Hno Hm. induction before as [|b before IH]; simpl in *.
  - by rewrite Hm.
  - apply andb_prop in Hwf as [Hb Hwf]. apply orb_false_elim in Hno as [Hnb Hno].
    destruct b as [| | | | |mb]; try done. simpl in *.
    destruct (mb !! key) as [v|]; [|done].
    destruct v as [| | |t| |]; simpl; auto.
    rewrite Hnb. auto.
Qed.

(** ** Validated descriptions *)

Lemma has_shape_required (required optional : list (string * Shape.Kind))
    (m : gmap string json) (k : string) (kind : Shape.Kind) :
  Shape.has_shape required optional (JObj m) = true ->
  (k, kind) ∈ required ->
  exists v, m !! k = Some v /\ Shape.of_kind kind v = true.
Proof.
  unfold Shape.has_shape. intros [[Hreq _]%andb_prop _]%andb_prop Hk.
  rewrite forallb_forall in Hreq.
  apply list_elem_of_In, Hreq in Hk.
  destruct (m !! k) as [v|]; [|done]. by exists v.
Qed.

Lemma has_shape_only (required optional : list (string * Shape.Kind))
    (m : gmap string json) (k : string) :
  Shape.has_shape required optional (JObj m) = true ->
  k ∉ required.*1 ++ optional.*1 ->
  m !! k = None.
Proof.
  unfold Shape.has_shape. intros [_ Hdom%bool_decide_eq_true]%andb_prop Hk.
  apply not_elem_of_dom. intros Hin. apply Hk.
  apply Hdom in Hin. by apply elem_of_list_to_set in Hin.
Qed.

Lemma kind_string (v : json) :
  Shape.of_kind Shape.KString v = true -> exists s, v = JStr s.
Proof. destruct v; try done. eauto. Qed.

Lemma kind_container_type (v : json) :
  Shape.of_kind Shape.KContainerType v = true ->
  exists s, v = JStr s /\ s ∈ container_types.
Proof.
  destruct v as [| | |s| |]; try done. simpl.
  intros H%bool_decide_eq_true. eauto.
Qed.

Lemma kind_credentials (v : json) :
  Shape.of_kind Shape.KCredentials v = true ->
  exists m u p, v = JObj m /\ m !! "username" = Some (JStr u)
                /\ m !! "password" = Some (JStr p).
Proof.
  destruct v as [| | | | |m]; try done. simpl.
  intros [[Hu Hp]%andb_prop _]%andb_prop.
  destruct (m !! "username") as [[| | |u| |]|] eqn:Eu; try done.
  destruct (m !! "password") as [[| | |p| |]|] eqn:Ep; try done.
  by exists m, u, p.
Qed.

(** X19. A description that [receive_validate] accepts has both
    [containerType] and [container], the first one of scans,
    reconstructions and assessors, or has neither of them. *)
Theorem valid_receive_container (m : gmap string json) :
  is_valid http_receive_schema (JObj m) = true ->
  (exists ct c, m !! "containerType" = Some (JStr ct)
                /\ ct ∈ container_types
                /\ m !! "container" = Some (JStr c))
  \/ (m !! "containerType" = None /\ m !! "container" = None).
Proof.
  rewrite valid_receive. unfold Shape.receive, Shape.receive_with.
  destruct (Shape.has_shape Shape.container_qualified_fields _ _) eqn:Hq;
    cbn [xorb]; [intros _; left | intros Hl; right].
  - assert (("containerType", Shape.KContainerType)
              ∈ Shape.container_qualified_fields) as Hin1
      by (apply list_elem_of_In; cbn; tauto).
    assert (("container", Shape.KString) ∈ Shape.container_qualified_fields)
      as Hin2 by (apply list_elem_of_In; cbn; tauto).
    destruct (has_shape_required _ _ m _ _ Hq Hin1) as (v1 & Hv1 & Hk1).
    destruct (has_shape_required _ _ m _ _ Hq Hin2) as (v2 & Hv2 & Hk2).
    apply kind_container_type in Hk1 as (ct & -> & Hct).
    apply kind_string in Hk2 as (c & ->).
    by exists ct, c.
  - split; apply (has_shape_only _ _ m _ Hl); cbn;
      rewrite !elem_of_cons, elem_of_nil; intros H;
      repeat destruct H as [H|H]; discriminate || done.
Qed.

(** The descriptor of a description: each property read at the type its
    schema gives it; a property that is not there, or not of that type, is
    absent. *)
Definition json_string (o : option json) : option string :=
  match o with
  | Some (JStr s) => Some s
  | _ => None
  end.

Definition json_bool (o : option json) : option bool :=
  match o with
  | Some (JBool b) => Some b
  | _ => None
  end.

Definition json_auth (o : option json) : option AuthDict :=
  match o with
  | Some (JObj m) =>
      match json_string (m !! "username"), json_string (m !! "password") with
      | Some u, Some p => Some (mkAuthDict u p)
      | _, _ => None
      end
  | _ => None
  end.

Definition access_of (m : gmap string json) : Access :=
  mkAccess (json_string (m !! "baseUrl")) (json_string (m !! "project"))
    (json_string (m !! "subject")) (json_string (m !! "session"))
    (json_string (m !! "containerType")) (json_string (m !! "container"))
    (json_string (m !! "resource")) (json_string (m !! "xsiType"))
    (json_string (m !! "file")) (json_bool (m !! "upsert"))
    (json_auth (m !! "auth")) (json_bool (m !! "disableSSLVerification")).

Lemma shape_string (required optional : list (string * Shape.Kind))
    (m : gmap string json) (k : string) :
  Shape.has_shape required optional (JObj m) = true ->
  In (k, Shape.KString) required ->
  exists s, json_string (m !! k) = Some s.
Proof.
  intros H Hk%list_elem_of_In.
  destruct (has_shape_required _ _ m _ _ H Hk) as (v & -> & (s & ->)%kind_string).
  by exists s.
Qed.

Lemma shape_container_type (required optional : list (string * Shape.Kind))
    (m : gmap string json) (k : string) :
  Shape.has_shape required optional (JObj m) = true ->
  In (k, Shape.KContainerType) required ->
  exists s, json_string (m !! k) = Some s /\ s ∈ container_types.
Proof.
  intros H Hk%list_elem_of_In.
  destruct (has_shape_required _ _ m _ _ H Hk)
    as (v & -> & (s & -> & Hs)%kind_container_type).
  by exists s.
Qed.

Lemma shape_credentials (required optional : list (string * Shape.Kind))
    (m : gmap string json) (k : string) :
  Shape.has_shape required optional (JObj m) = true ->
  In (k, Shape.KCredentials) required ->
  exists au, json_auth (m !! k) = Some au.
Proof.
  intros H Hk%list_elem_of_In.
  destruct (has_shape_required _ _ m _ _ H Hk)
    as (v & -> & (ma & u & p & -> & Hu & Hp)%kind_credentials).
  exists (mkAuthDict u p). simpl. by rewrite Hu, Hp.
Qed.

Lemma container_type_truthy (s : string) :
  s ∈ container_types -> PyStr.truthy s = true.
Proof.
  unfold container_types. rewrite !elem_of_cons, elem_of_nil.
  intros [->|[->|[->|[]]]]; done.
Qed.

Section Validated.

Context {St : Type}.
Variable srv : St -> Request -> Reply * St.

(** X20. A description that [send_validate] accepts has every key that
    [Http.send] indexes: the run raises no [KeyError] for the descriptor and
    gets to its first call, which carries the credentials of [auth]. *)
Theorem validated_send_is_served (m : gmap string json) (i : Internal)
    (w : World St) :
  is_valid http_send_schema (JObj m) = true ->
  exists au rq rp rest,
    auth (access_of m) = Some au
    /\ trace (send srv (access_of m) i w) = EvHttp rq rp :: rest
    /\ req_auth rq = Some (mkHTTPBasicAuth (username au) (password au)).
Proof.
  rewrite valid_send. unfold Shape.send, Shape.send_with. intros H.
  destruct (shape_string _ _ m "baseUrl" H) as (b & Hb); [cbn; tauto|].
  destruct (shape_string _ _ m "project" H) as (p & Hp); [cbn; tauto|].
  destruct (shape_string _ _ m "subject" H) as (s & Hs); [cbn; tauto|].
  destruct (shape_string _ _ m "session" H) as (e & He); [cbn; tauto|].
  destruct (shape_container_type _ _ m "containerType" H) as (ct & Hct & _);
    [cbn; tauto|].
  destruct (shape_string _ _ m "container" H) as (c & Hc); [cbn; tauto|].
  destruct (shape_string _ _ m "xsiType" H) as (x & Hx); [cbn; tauto|].
  destruct (shape_string _ _ m "file" H) as (f & Hf); [cbn; tauto|].
  destruct (shape_credentials _ _ m "auth" H) as (au & Hau); [cbn; tauto|].
  exists au.
  unfold send, access_of, _auth_method_obj; cbv zeta.
  cbn [baseUrl project subject session containerType container resource
       xsiType file upsert auth disableSSLVerification].
  rewrite Hb, Hp, Hs, He, Hct, Hc, Hx, Hf, Hau.
  rewrite !bind_item; cbv beta iota zeta.
  call srv r1 st1; eauto 10.
Qed.

(** X21. A description that [receive_validate] accepts, of either shape,
    has every key that [Http.receive] indexes: the run raises no [KeyError]
    and gets to its GET, which carries the credentials of [auth]. *)
Theorem validated_receive_is_served (m : gmap string json) (i : Internal)
    (w : World St) :
  is_valid http_receive_schema (JObj m) = true ->
  exists au rq rp rest,
    auth (access_of m) = Some au
    /\ trace (receive srv (access_of m) i w) = EvHttp rq rp :: rest
    /\ meth rq = GET
    /\ req_auth rq = Some (mkHTTPBasicAuth (username au) (password au)).
Proof.
  rewrite valid_receive. unfold Shape.receive, Shape.receive_with. intros Hx.
  assert (exists required,
             Shape.has_shape required Shape.tls_switch (JObj m) = true
             /\ incl Shape.container_less_fields required)
    as (required & H & Hincl).
  { destruct (Shape.has_shape Shape.container_qualified_fields _ _) eqn:Hq.
    - exists Shape.container_qualified_fields. split; [done|].
      intros k Hk. cbn in *. tauto.
    - exists Shape.container_less_fields. split; [exact Hx | apply incl_refl]. }
  destruct (shape_string _ _ m "baseUrl" H) as (b & Hb); [apply Hincl; cbn; tauto|].
  destruct (shape_string _ _ m "project" H) as (p & Hp); [apply Hincl; cbn; tauto|].
  destruct (shape_string _ _ m "subject" H) as (s & Hs); [apply Hincl; cbn; tauto|].
  destruct (shape_string _ _ m "session" H) as (e & He); [apply Hincl; cbn; tauto|].
  destruct (shape_string _ _ m "resource" H) as (r & Hr); [apply Hincl; cbn; tauto|].
  destruct (shape_string _ _ m "file" H) as (f & Hf); [apply Hincl; cbn; tauto|].
  destruct (shape_credentials _ _ m "auth" H) as (au & Hau);
    [apply Hincl; cbn; tauto|].
  exists au.
  unfold receive, access_of, _auth_method_obj; cbv zeta.
  cbn [baseUrl project subject session containerType container resource
       xsiType file upsert auth disableSSLVerification].
  rewrite Hb, Hp, Hs, He, Hr, Hf, Hau.
  rewrite !bind_item; cbv beta iota zeta.
  call srv r1 st1; eauto 10.
Qed.

End Validated.

(** ** Steps that fail *)



Section Stopping.

Context {St : Type}.
Variable srv : St -> Request -> Reply * St.















End Stopping.


(** ** How many calls *)

(** The computation sends [n] requests at most. *)
Definition AtMost {St A} (n : nat) (m : M St A) : Prop :=
  forall w, (length (requests_of (trace (m w))) <= n)%nat.

Section Counting.

Context {St : Type}.
Variable srv : St -> Request -> Reply * St.

Lemma AtMost_none {A} (m : M St A) :
  (forall w, requests_of (trace (m w)) = []) -> AtMost 0 m.
Proof. intros H w. by rewrite H. Qed.

Lemma AtMost_le {A} (n n' : nat) (m : M St A) :
  AtMost n m -> (n <= n')%nat -> AtMost n' m.
Proof. intros H Hn w. specialize (H w). lia. Qed.

Lemma AtMost_ret {A} (a : A) : AtMost (St:=St) 0 (ret a).
Proof. by apply AtMost_none. Qed.

Lemma AtMost_raise {A} (e : exn) : AtMost (St:=St) (A:=A) 0 (raise e).
Proof. by apply AtMost_none. Qed.

Lemma AtMost_lift {A} (r : result A) : AtMost (St:=St) 0 (lift r).
Proof. by apply AtMost_none. Qed.

Lemma AtMost_item {A} (key : string) (o : option A) : AtMost (St:=St) 0 (item key o).
Proof. apply AtMost_none. by destruct o. Qed.

Lemma AtMost_raise_for_status (r : Response) :
  AtMost (St:=St) 0 (raise_for_status r).
Proof.
  apply AtMost_none. intros w. unfold raise_for_status.
  by destruct (is_error_status (status_code r)).
Qed.

Lemma AtMost_open_rb (p : string) : AtMost (St:=St) 0 (open_rb p).
Proof.
  apply AtMost_none. intros w. unfold open_rb.
  by destruct (files w !! p).
Qed.

Lemma AtMost_open_wb (p : string) : AtMost (St:=St) 0 (open_wb p).
Proof. by apply AtMost_none. Qed.

Lemma AtMost_close (p : string) : AtMost (St:=St) 0 (close p).
Proof. by apply AtMost_none. Qed.

Lemma AtMost_request (rq : Request) : AtMost 1 (request srv rq).
Proof.
  intros w. unfold request.
  by destruct (srv (remote w) rq) as [[r|] st].
Qed.

Lemma AtMost_if {A} (n1 n2 : nat) (c : bool) (m1 m2 : M St A) :
  AtMost n1 m1 -> AtMost n2 m2 -> AtMost (Nat.max n1 n2) (if c then m1 else m2).
Proof.
  intros H1 H2 w. specialize (H1 w). specialize (H2 w). destruct c; lia.
Qed.

Lemma AtMost_bind {A B} (n1 n2 : nat) (m : M St A) (k : A -> M St B) :
  AtMost n1 m -> (forall a, AtMost n2 (k a)) -> AtMost (n1 + n2) (bind m k).
Proof.
  intros Hm Hk w. specialize (Hm w). unfold bind.
  destruct (m w) as [[[a|e] w1] t1]; cbn [trace fst snd] in *; [|lia].
  specialize (Hk a w1). destruct (k a w1) as [[r2 w2] t2].
  cbn [trace fst snd] in *. rewrite requests_of_app, length_app. lia.
Qed.

Lemma AtMost_finally {A} (n1 n2 : nat) (body : M St A) (cleanup : M St unit) :
  AtMost n1 body -> AtMost n2 cleanup -> AtMost (n1 + n2) (finally body cleanup).
Proof.
  intros Hb Hc w. specialize (Hb w). unfold finally.
  destruct (body w) as [[r w1] t1].
  specialize (Hc w1). destruct (cleanup w1) as [[r2 w2] t2].
  cbn [trace fst snd] in *. rewrite requests_of_app, length_app. lia.
Qed.

Lemma AtMost_write_chunks (p : string) (chunks : list bytes) (broken : bool) :
  AtMost (St:=St) 0 (write_chunks p chunks broken).
Proof.
  induction chunks as [|chunk chunks IH]; simpl.
  - destruct broken; [apply AtMost_raise | apply AtMost_ret].
  - apply (AtMost_bind 0 0); [|done].
    destruct chunk; [apply AtMost_ret | by apply AtMost_none].
Qed.

End Counting.

Ltac at_most :=
  unfold requests_get, requests_put, requests_delete; cbv zeta;
  repeat first
    [ apply AtMost_ret | apply AtMost_raise | apply AtMost_lift | apply AtMost_item
    | apply AtMost_raise_for_status | apply AtMost_request
    | apply AtMost_open_rb | apply AtMost_open_wb | apply AtMost_close
    | apply AtMost_write_chunks
    | eapply AtMost_finally
    | eapply AtMost_if
    | eapply AtMost_bind; [|intros ?] ].

Section Bounds.

Context {St : Type}.
Variable srv : St -> Request -> Reply * St.


(** X23. [Http.send] makes eight calls at most and [Http.receive] two:
    no call is repeated, whatever the server answers. *)
Theorem calls_are_bounded (a : Access) (i : Internal) (w : World St) :
  (length (requests_of (trace (send srv a i w))) <= 8)%nat
  /\ (length (requests_of (trace (receive srv a i w))) <= 2)%nat.
Proof.
  split.
  - enough (AtMost 8 (send srv a i)) as H by apply H.
    eapply AtMost_le; [unfold send; at_most | vm_compute; lia].
  - enough (AtMost 2 (receive srv a i)) as H by apply H.
    eapply AtMost_le; [unfold receive; at_most | vm_compute; lia].
Qed.

End Bounds.

(** ** The further properties at concrete runs *)

Module Cases.

(** A download that arrives whole, in three chunks, one of them empty. *)
Definition streamed : Response :=
  mkResponse 200 None
    [[Byte.x44; Byte.x49]; []; [Byte.x43; Byte.x4d]] false Example.jar.



(** SCAN1 exists, without the resource DICOM. *)
Definition no_resource_script : list Reply :=
  [Answered (Example.lists "ID" "SCAN1"); Answered (Example.lists "label" "NIFTI");
   Example.ok; Example.ok; Example.ok; Example.ok].

(** SCAN1 exists with the resource DICOM, which does not hold a.dcm. *)
Definition no_file_script : list Reply :=
  [Answered (Example.lists "ID" "SCAN1"); Answered (Example.lists "label" "DICOM");
   Answered (Example.lists "Name" "b.dcm");
   Example.ok; Example.ok; Example.ok; Example.ok].

(** No local file at all. *)
Definition bare (script : list Reply) : World (list Reply) :=
  mkWorld script ∅.

Definition upload_fields : gmap string json :=
  list_to_map
    [("baseUrl", JStr "https://xnat.example.org/"); ("project", JStr "P1");
     ("subject", JStr "S1"); ("session", JStr "E1");
     ("containerType", JStr "scans"); ("container", JStr "SCAN1");
     ("xsiType", JStr "xnat:mrScanData"); ("file", JStr "a.dcm");
     ("upsert", JBool true);
     ("auth", JObj (list_to_map [("username", JStr "alice");
                                 ("password", JStr "secret")]))].

Definition download_fields : gmap string json :=
  list_to_map
    [("baseUrl", JStr "https://xnat.example.org/"); ("project", JStr "P1");
     ("subject", JStr "S1"); ("session", JStr "E1");
     ("resource", JStr "DICOM"); ("file", JStr "a.dcm");
     ("auth", JObj (list_to_map [("username", JStr "alice");
                                 ("password", JStr "secret")]))].

Definition entry (key value : string) : json :=
  JObj {[ key := JStr value ]}.

End Cases.

(** X4 at the example: SCAN1 exists and [upsert] is absent. *)
Lemma send_without_upsert_never_deletes_example :
  List.filter (deleting "https://xnat.example.org")
    (calls (trace (send Example.scripted (Example.upload None) Example.internal
                     (Example.world Example.replace_script)))) = [].
Proof.
  apply (send_without_upsert_never_deletes Example.scripted (Example.upload None)
           Example.internal (Example.world Example.replace_script)).
  discriminate.
Defined.

(** X6 at the example: another local file keeps its content through a
    download. *)
Lemma receive_writes_its_path_only_example :
  let w := mkWorld [Answered Cases.streamed; Example.ok]
             {[ "/data/b.dcm" := Example.content ]} in
  files (final (receive Example.scripted Example.download Example.internal w))
    !! "/data/b.dcm"
  = Some Example.content.
Proof.
  intros w.
  rewrite (receive_writes_its_path_only Example.scripted Example.download
             Example.internal w "/data/b.dcm"); [reflexivity | discriminate].
Defined.




(** X11 at the example: SCAN1 has no resource DICOM. *)
Lemma send_replaces_container_without_resource_example :
  let run := send Example.scripted (Example.upload (Some true)) Example.internal
               (Example.world Cases.no_resource_script) in
  outcome run = Ok tt
  /\ calls (trace run)
     = [ (GET, "https://xnat.example.org/REST/projects/P1/subjects/S1/experiments/E1/scans?format=json");
         (GET, "https://xnat.example.org/REST/projects/P1/subjects/S1/experiments/E1/scans/SCAN1/resources?format=json");
         (DELETE, "https://xnat.example.org/REST/projects/P1/subjects/S1/experiments/E1/scans/SCAN1");
         (PUT, "https://xnat.example.org/REST/projects/P1/subjects/S1/experiments/E1/scans/SCAN1?xsiType=xnat:mrScanData");
         (PUT, "https://xnat.example.org/REST/projects/P1/subjects/S1/experiments/E1/scans/SCAN1/resources/DICOM/files/a.dcm?inbody=true");
         (DELETE, "https://xnat.example.org/data/JSESSION") ].
Proof.
  edestruct (send_replaces_container_without_resource Example.scripted
               "https://xnat.example.org/" "P1" "S1" "E1" "scans" "SCAN1"
               (Some "DICOM") "xnat:mrScanData" "a.dcm" (Some Example.credentials)
               None Example.internal (Example.world Cases.no_resource_script))
    as (Hout & Hreq); [reflexivity .. |].
  split; [exact Hout|].
  rewrite calls_requests.
  exact (f_equal (fmap (fun rq => (meth rq, url rq))) Hreq).
Defined.

(** X12 at the example: the resource DICOM of SCAN1 holds b.dcm only. *)
Lemma send_replaces_container_without_file_example :
  let run := send Example.scripted (Example.upload (Some true)) Example.internal
               (Example.world Cases.no_file_script) in
  outcome run = Ok tt
  /\ calls (trace run)
     = [ (GET, "https://xnat.example.org/REST/projects/P1/subjects/S1/experiments/E1/scans?format=json");
         (GET, "https://xnat.example.org/REST/projects/P1/subjects/S1/experiments/E1/scans/SCAN1/resources?format=json");
         (GET, "https://xnat.example.org/REST/projects/P1/subjects/S1/experiments/E1/scans/SCAN1/resources/DICOM/files?format=json");
         (DELETE, "https://xnat.example.org/REST/projects/P1/subjects/S1/experiments/E1/scans/SCAN1");
         (PUT, "https://xnat.example.org/REST/projects/P1/subjects/S1/experiments/E1/scans/SCAN1?xsiType=xnat:mrScanData");
         (PUT, "https://xnat.example.org/REST/projects/P1/subjects/S1/experiments/E1/scans/SCAN1/resources/DICOM/files/a.dcm?inbody=true");
         (DELETE, "https://xnat.example.org/data/JSESSION") ].
Proof.
  edestruct (send_replaces_container_without_file Example.scripted
               "https://xnat.example.org/" "P1" "S1" "E1" "scans" "SCAN1"
               (Some "DICOM") "xnat:mrScanData" "a.dcm" (Some Example.credentials)
               None Example.internal (Example.world Cases.no_file_script))
    as (Hout & Hreq); [reflexivity .. |].
  split; [exact Hout|].
  rewrite calls_requests.
  exact (f_equal (fmap (fun rq => (meth rq, url rq))) Hreq).
Defined.

(** X15 at the example: the listing call is answered without a JSON
    body. *)
Lemma send_unreadable_listing_example :
  let w := Example.world [Example.ok; Example.ok; Example.ok; Example.ok] in
  let run := send Example.scripted (Example.upload (Some true)) Example.internal w in
  outcome run = Raised JSONDecodeError
  /\ length (trace run) = 1%nat.
Proof.
  intros w run.
  edestruct (send_unreadable_listing Example.scripted (Example.upload (Some true))
               Example.internal w "SCAN1") as (Hrest & Hout & _);
    [reflexivity | reflexivity | reflexivity | reflexivity |].
  split; [exact Hout | reflexivity].
Defined.

(** X16 at the example: there is no local file to upload. *)
Lemma send_missing_local_file_example :
  let run := send Example.scripted (Example.upload None) Example.internal
               (Cases.bare Example.create_script) in
  outcome run = Raised (FileNotFoundError "/data/a.dcm")
  /\ calls (trace run)
     = [ (GET, "https://xnat.example.org/REST/projects/P1/subjects/S1/experiments/E1/scans?format=json");
         (PUT, "https://xnat.example.org/REST/projects/P1/subjects/S1/experiments/E1/scans/SCAN1?xsiType=xnat:mrScanData") ].
Proof.
  edestruct (send_missing_local_file Example.scripted
               "https://xnat.example.org/" "P1" "S1" "E1" "scans" "SCAN1"
               (Some "DICOM") "xnat:mrScanData" "a.dcm" None
               (Some Example.credentials) None Example.internal
               (Cases.bare Example.create_script))
    as (_ & _ & Hout); [reflexivity .. |].
  split; [exact Hout | reflexivity].
Defined.

(** X17 at the example: the entry after the match is not even a dict. *)
Lemma exists_loop_stops_at_first_match_example :
  exists_loop "ID" "SCAN1"
    ([Cases.entry "ID" "SCAN2"] ++ Cases.entry "ID" "SCAN1" :: [JNull])
  = Ok true.
Proof.
  apply exists_loop_stops_at_first_match; reflexivity.
Defined.

(** X18 at the example: the second entry has a label, no ID. *)
Lemma exists_loop_missing_identifier_example :
  exists_loop "ID" "SCAN1"
    ([Cases.entry "ID" "SCAN2"] ++ JObj {[ "label" := JStr "SCAN1" ]}
       :: [Cases.entry "ID" "SCAN1"])
  = Raised (KeyError "ID").
Proof.
  apply exists_loop_missing_identifier; reflexivity.
Defined.

(** X19 at the example: a container-less description. *)
Lemma valid_receive_container_example :
  Cases.download_fields !! "containerType" = None
  /\ Cases.download_fields !! "container" = None.
Proof.
  destruct (valid_receive_container Cases.download_fields)
    as [(ct & c & Hct & _)|H]; [reflexivity | | exact H].
  vm_compute in Hct. discriminate Hct.
Defined.

(** X20 at the example. *)
Lemma validated_send_is_served_example :
  exists au rq rp rest,
    auth (access_of Cases.upload_fields) = Some au
    /\ trace (send Example.scripted (access_of Cases.upload_fields)
                Example.internal (Example.world Example.replace_script))
       = EvHttp rq rp :: rest
    /\ req_auth rq = Some (mkHTTPBasicAuth (username au) (password au)).
Proof.
  apply validated_send_is_served. reflexivity.
Defined.

(** X21 at the example. *)
Lemma validated_receive_is_served_example :
  exists au rq rp rest,
    auth (access_of Cases.download_fields) = Some au
    /\ trace (receive Example.scripted (access_of Cases.download_fields)
                Example.internal
                (Example.world [Answered Cases.streamed; Example.ok]))
       = EvHttp rq rp :: rest
    /\ meth rq = GET
    /\ req_auth rq = Some (mkHTTPBasicAuth (username au) (password au)).
Proof.
  apply validated_receive_is_served. reflexivity.
Defined.

